(** * slot-backend: the daily-drop admission service

    A shallow embedding of the route handlers of [server.js] (PostgreSQL
    pool, asynchronous) and of its sibling written against better-sqlite3
    (synchronous), followed by the properties of the admission path, the
    streak bookkeeping and the config store.

    Conventions of the embedding.
    - The three tables are a record [store]: the [drops] ledger is a list in
      insertion order, [streaks] and [config] are finite maps keyed by their
      primary key.
    - A handler is a function from the request, the clock readings it makes
      and the store to a response and the next store.  For the config
      upsert and for the drop the refusals of the store are an argument of
      the handler ([put_api_admin_config], [post_api_drop_on]): a refused
      statement is answered 500 and what was committed before it stays.
      [post_api_drop] is the drop on a store that refuses nothing.
    - JavaScript numbers that occur here are integer valued or [NaN]; they
      are [num].  Integers are unbounded ([Z]); the rounding of doubles
      beyond 2^53 is outside the model.
    - A calendar date, the ten character prefix of [toISOString()], is
      represented by the number of the UTC day it denotes; the store keeps
      its timestamps in UTC as well. *)

From Stdlib Require Import ZArith Ascii String List.
From stdpp Require Import gmap strings list fin_maps pretty.

Open Scope Z_scope.
Open Scope string_scope.

(** ** JavaScript values *)

(** Integer valued numbers and NaN. *)
Inductive num : Type :=
| Int (z : Z)
| NaN.

#[global] Instance num_eq_dec : EqDecision num.
Proof. solve_decision. Defined.

(** [a >= b]: false as soon as one side is NaN. *)
Definition js_ge (a b : num) : bool :=
  match a, b with
  | Int x, Int y => bool_decide (y <= x)
  | _, _ => false
  end.

(** [a <= b], used to state bounds on stored values. *)
Definition js_le (a b : num) : bool := js_ge b a.

(** [Math.min(a, b)]: NaN as soon as one argument is NaN. *)
Definition Math_min (a b : num) : num :=
  match a, b with
  | Int x, Int y => Int (Z.min x y)
  | _, _ => NaN
  end.

(** Scalar values: what [express.json()] hands to a handler for a body
    property, and what a handler binds to a statement parameter.  A property
    that is absent from the body (JavaScript [undefined]) is [None] at the
    type [option jsval]. *)
Inductive jsval : Type :=
| JNull
| JBool (b : bool)
| JNumber (n : num)
| JStr (s : string).

#[global] Instance jsval_eq_dec : EqDecision jsval.
Proof. solve_decision. Defined.

(** *** String *)

Fixpoint strip_trailing_zeros (s : string) : string :=
  match s with
  | EmptyString => EmptyString
  | String c r =>
      match strip_trailing_zeros r with
      | EmptyString => if Ascii.eqb c "0" then EmptyString else String c EmptyString
      | r' => String c r'
      end
  end.

(** Exponent notation, [d.ddde+n], of a positive integer: the digits are
    those of the exact value without the trailing zeros.  This is the text
    the code gives for the doubles whose shortest decimal form is exact,
    such as 10^21 or 5 * 10^22. *)
Definition exponent_text (n : N) : string :=
  let digits := pretty n in
  let e := pretty (N.of_nat (String.length digits - 1)) in
  match strip_trailing_zeros digits with
  | String d EmptyString => String d ("e+" +:+ e)
  | String d r => String d ("." +:+ r +:+ "e+" +:+ e)
  | EmptyString => digits
  end.

(** The text of an integer valued number: plain decimal below 10^21 in
    absolute value, exponent notation from there on.  The digits are those
    of the exact value: this is the text of the code for the safe integers,
    below 2^53 in absolute value, and for the larger doubles whose shortest
    decimal form is exact. *)
Definition NumberToString (z : Z) : string :=
  if (Z.abs z <? 10 ^ 21)%Z then pretty z
  else (if (z <? 0)%Z then "-" else "") +:+ exponent_text (Z.to_N (Z.abs z)).

(** [String(value)] *)
Definition String_ (v : jsval) : string :=
  match v with
  | JNull => "null"
  | JBool true => "true"
  | JBool false => "false"
  | JNumber (Int z) => NumberToString z
  | JNumber NaN => "NaN"
  | JStr s => s
  end.

(** *** parseInt *)

(** Strings are sequences of bytes, the UTF-8 form of the text.  White
    space of one byte: tab, line feed, vertical tab, form feed, carriage
    return, space. *)
Definition is_StrWhiteSpaceChar (c : ascii) : bool :=
  let n := nat_of_ascii c in
  ((9 <=? n) && (n <=? 13))%nat || (n =? 32)%nat.

(** Third byte of a white space character that starts with E2 80:
    U+2000 to U+200A, U+2028, U+2029, U+202F. *)
Definition is_E2_80_space (c : ascii) : bool :=
  let n := nat_of_ascii c in
  ((128 <=? n) && (n <=? 138))%nat || (n =? 168)%nat || (n =? 169)%nat
  || (n =? 175)%nat.

(** Leading white space removed: the characters of one byte and, in their
    UTF-8 form, U+00A0, U+1680, U+2000 to U+200A, U+2028, U+2029, U+202F,
    U+205F, U+3000 and U+FEFF. *)
Fixpoint trimStart (s : string) : string :=
  match s with
  | EmptyString => s
  | String c1 r1 =>
      if is_StrWhiteSpaceChar c1 then trimStart r1
      else
        match r1 with
        | EmptyString => s
        | String c2 r2 =>
            let n1 := nat_of_ascii c1 in
            let n2 := nat_of_ascii c2 in
            if ((n1 =? 194) && (n2 =? 160))%nat then trimStart r2
            else
              match r2 with
              | EmptyString => s
              | String c3 r3 =>
                  let n3 := nat_of_ascii c3 in
                  if ((n1 =? 225) && (n2 =? 154) && (n3 =? 128))%nat
                     || ((n1 =? 226) && (n2 =? 128))%nat && is_E2_80_space c3
                     || ((n1 =? 226) && (n2 =? 129) && (n3 =? 159))%nat
                     || ((n1 =? 227) && (n2 =? 128) && (n3 =? 128))%nat
                     || ((n1 =? 239) && (n2 =? 187) && (n3 =? 191))%nat
                  then trimStart r3
                  else s
              end
        end
  end.

(** Value of a character as a digit, in any radix up to 36. *)
Definition digit_value (c : ascii) : option Z :=
  let n := Z.of_nat (nat_of_ascii c) in
  if ((48 <=? n) && (n <=? 57))%Z then Some (n - 48)
  else if ((97 <=? n) && (n <=? 122))%Z then Some (n - 87)
  else if ((65 <=? n) && (n <=? 90))%Z then Some (n - 55)
  else None.

(** The longest prefix of [s] made of digits of the radix, read as a
    number; [acc] is [None] until a first digit has been read. *)
Fixpoint parse_digits (radix : Z) (acc : option Z) (s : string) : option Z :=
  match s with
  | String c s' =>
      match digit_value c with
      | Some d =>
          if (d <? radix)%Z
          then parse_digits radix (Some (default 0 acc * radix + d)) s'
          else acc
      | None => acc
      end
  | EmptyString => acc
  end.

(** [parseInt(s)] with no radix argument: leading white space, an optional
    sign, an optional [0x] prefix that switches to radix 16, then digits;
    NaN when there is no digit. *)
Definition parseInt (s : string) : num :=
  let s1 := trimStart s in
  let '(sign, s2) :=
    match s1 with
    | String "-" r => (-1, r)
    | String "+" r => (1, r)
    | _ => (1, s1)
    end in
  let '(radix, s3) :=
    match s2 with
    | String "0" (String "x" r) => (16, r)
    | String "0" (String "X" r) => (16, r)
    | _ => (10, s2)
    end in
  match parse_digits radix None s3 with
  | Some v => Int (sign * v)
  | None => NaN
  end.

(** [value || fallback] on a possibly missing string: the fallback is taken
    when the value is undefined or the empty string. *)
Definition or_else (value : option string) (fallback : string) : string :=
  match value with
  | Some s => if decide (s = "") then fallback else s
  | None => fallback
  end.

(** ** Time *)

Definition ms_per_day : Z := 86400000.

(** [new Date(t).toISOString().slice(0, 10)] for [t] in milliseconds since
    the epoch, as a UTC day number. *)
Definition isoDate (t : Z) : Z := t `div` ms_per_day.

(** ** The store *)

Record drop_row : Type := mkDrop {
  device_hash : string;
  mode : jsval;
  char_count : jsval;
  created_at : Z          (* CURRENT_TIMESTAMP of the store, in ms *)
}.

Record streak_row : Type := mkStreak {
  current_streak : Z;
  longest_streak : Z;
  last_drop_date : option Z
}.

Record store : Type := mkStore {
  drops : list drop_row;
  streaks : gmap string streak_row;
  config : gmap string string
}.

#[global] Instance drop_row_eq_dec : EqDecision drop_row.
Proof. solve_decision. Defined.

#[global] Instance streak_row_eq_dec : EqDecision streak_row.
Proof. solve_decision. Defined.

(** [DATE(created_at) = day] *)
Definition on_day (day : Z) (r : drop_row) : bool :=
  bool_decide (isoDate (created_at r) = day).

(** [SELECT COUNT( * ) FROM drops WHERE DATE(created_at) = $1] *)
Definition count_on_day (day : Z) (l : list drop_row) : Z :=
  Z.of_nat (length (filter (fun r => on_day day r = true) l)).

(** [SELECT COUNT( * ) FROM drops WHERE device_hash = $1 AND
    DATE(created_at) = $2] *)
Definition count_device_on_day (d : string) (day : Z) (l : list drop_row) : Z :=
  Z.of_nat (length (filter
    (fun r => bool_decide (device_hash r = d) && on_day day r = true) l)).

(** The default config of [initDB], in the order of [Object.entries]. *)
Definition defaults : list (string * string) :=
  [ ("type_enabled", "true");
    ("speak_enabled", "true");
    ("draw_enabled", "true");
    ("streaks_enabled", "true");
    ("global_drops_visible", "true");
    ("live_counter_visible", "true");
    ("seasonal_accent", "true");
    ("max_chars", "200");
    ("drops_per_day", "1");
    ("announcement", "") ].

(** [INSERT INTO config ... ON CONFLICT (key) DO NOTHING] *)
Definition insert_if_absent (k v : string) (c : gmap string string)
  : gmap string string :=
  match c !! k with
  | Some _ => c
  | None => <[k := v]> c
  end.

(** [initDB]: the tables exist afterwards and every default key that was
    missing is seeded. *)
Definition initDB (s : store) : store :=
  mkStore (drops s) (streaks s)
    (fold_left (fun c kv => insert_if_absent kv.1 kv.2 c) defaults (config s)).

Definition empty_store : store := mkStore [] ∅ ∅.

(** ** Requests and responses *)

Record request : Type := mkReq {
  ip : option string;              (* req.ip *)
  user_agent : option string;      (* req.headers['user-agent'] *)
  x_admin_key : option string      (* req.headers['x-admin-key'] *)
}.

(** The body of [POST /api/drop] and of [POST /api/admin/drop]. *)
Record drop_body : Type := mkBody {
  body_mode : option jsval;
  body_charCount : option jsval
}.

Inductive response : Type :=
| DropOk (todayCount : Z)   (* 200 { success: true, todayCount } *)
| Success                   (* 200 { success: true } *)
| InvalidMode               (* 400 { error: 'Invalid mode' } *)
| Unauthorized              (* 401 { error: 'Unauthorized' } *)
| ModeDisabled              (* 403 { error: 'This mode is currently disabled' } *)
| AlreadyDroppedToday       (* 429 { error: 'Already dropped today' } *)
| DatabaseError.            (* 500 { error: 'Database error' } *)

#[global] Instance response_eq_dec : EqDecision response.
Proof. solve_decision. Defined.

Definition status (r : response) : Z :=
  match r with
  | DropOk _ | Success => 200
  | InvalidMode => 400
  | Unauthorized => 401
  | ModeDisabled => 403
  | AlreadyDroppedToday => 429
  | DatabaseError => 500
  end.

(** The clock readings of one [POST /api/drop]: [new Date()] on entry, the
    store's [CURRENT_TIMESTAMP] when the drop is inserted, and [Date.now()]
    when the streak is brought up to date. *)
Record drop_clock : Type := mkClock {
  now_entry : Z;
  now_insert : Z;
  now_streak : Z
}.

(** [const { mode = 'type', charCount = 0 } = req.body] *)
Definition mode_of (body : drop_body) : jsval :=
  default (JStr "type") (body_mode body).

Definition charCount_of (body : drop_body) : jsval :=
  default (JNumber (Int 0)) (body_charCount body).

(** [today] and [yesterday] as one [POST /api/drop] computes them. *)
Definition today_of (clk : drop_clock) : Z := isoDate (now_entry clk).

Definition yesterday_of (clk : drop_clock) : Z :=
  isoDate (now_streak clk - ms_per_day).

(** [parseInt(config.drops_per_day || '1')] *)
Definition maxDrops (config : gmap string string) : num :=
  parseInt (or_else (config !! "drops_per_day") "1").

(** [parseInt(config.max_chars || '200')] *)
Definition maxChars (config : gmap string string) : num :=
  parseInt (or_else (config !! "max_chars") "200").

(** [config[`${mode}_enabled`] === 'false'] *)
Definition mode_disabled (config : gmap string string) (mode : jsval) : bool :=
  bool_decide (config !! (String_ mode +:+ "_enabled") = Some "false").

Definition validModes : list string := ["type"; "speak"; "draw"].

(** [validModes.includes(mode)] *)
Definition includes (l : list string) (v : jsval) : bool :=
  match v with
  | JStr s => bool_decide (s ∈ l)
  | _ => false
  end.

(** The streak of a device that already has a row, as the conditional
    expression of the handler computes it. *)
Definition newStreak (streak : streak_row) (today yesterday : Z) : Z :=
  if decide (last_drop_date streak = Some yesterday)
  then current_streak streak + 1
  else if decide (last_drop_date streak = Some today)
       then current_streak streak
       else 1.

Section Handlers.

(** What the model leaves to the platform: the conversion of a string to
    a number that [Math.min] applies to a string argument, the digest of
    [getDeviceHash], and the admin key of the process. *)
Variable StringToNumber : string -> num.
Variable sha256_hex16 : string -> string.
Variable ADMIN_KEY : string.

(** The conversion [Math.min] applies to its first argument. *)
Definition ToNumber (v : jsval) : num :=
  match v with
  | JNull => Int 0
  | JBool true => Int 1
  | JBool false => Int 0
  | JNumber n => n
  | JStr s => StringToNumber s
  end.

Definition getDeviceHash (req : request) : string :=
  sha256_hex16 (or_else (ip req) "" +:+ or_else (user_agent req) "").

Definition requireAdmin (req : request) (next : store -> response * store)
    (s : store) : response * store :=
  if decide (x_admin_key req = Some ADMIN_KEY) then next s
  else (Unauthorized, s).

(** *** POST /api/drop (the same in both files)

    The handler on a store that answers every statement and takes the size
    it is handed.  The refusals of the store, answered 500, are in
    [post_api_drop_on] below, which is this function whenever nothing is
    refused (lemma [post_api_drop_on_answered]). *)
Definition post_api_drop (req : request) (body : drop_body)
    (clk : drop_clock) (s : store) : response * store :=
  let deviceHash := getDeviceHash req in
  let today := today_of clk in
  let mode := mode_of body in
  let charCount := charCount_of body in
  let config := config s in
  let maxDrops := maxDrops config in
  let userDrops := count_device_on_day deviceHash today (drops s) in
  if js_ge (Int userDrops) maxDrops then (AlreadyDroppedToday, s)
  else if negb (includes validModes mode) then (InvalidMode, s)
  else if mode_disabled config mode then (ModeDisabled, s)
  else
    let drops1 :=
      (drops s ++
       [mkDrop deviceHash mode
          (JNumber (Math_min (ToNumber charCount) (maxChars config)))
          (now_insert clk)])%list in
    let yesterday := yesterday_of clk in
    let streaks1 :=
      match streaks s !! deviceHash with
      | Some streak =>
          let newStreak := newStreak streak today yesterday in
          let longest := Z.max newStreak (longest_streak streak) in
          <[deviceHash := mkStreak newStreak longest (Some today)]> (streaks s)
      | None =>
          <[deviceHash := mkStreak 1 1 (Some today)]> (streaks s)
      end in
    (DropOk (count_on_day today drops1), mkStore drops1 streaks1 config).

(** *** POST /api/admin/drop

    The handler on a store that takes the row.  The [charCount] of the body
    is bound as it is: a value the store refuses for its INTEGER column is
    answered 500 with nothing stored, and that path is left out here. *)
Definition post_api_admin_drop (req : request) (body : drop_body)
    (now_insert : Z) : store -> response * store :=
  requireAdmin req (fun s =>
    let mode := mode_of body in
    let charCount := charCount_of body in
    (Success,
     mkStore (drops s ++ [mkDrop "admin" mode charCount now_insert])%list
       (streaks s) (config s))).

(** *** PUT /api/admin/config

    The body is the list of [Object.entries(updates)].  Each statement
    may be refused by the store; [fails i] tells whether the statement
    number [i] of the request is.  An upsert overwrites or inserts. *)
Fixpoint upsert_entries (fails : nat -> bool) (i : nat)
    (entries : list (string * jsval)) (c : gmap string string)
    : bool * gmap string string :=
  match entries with
  | [] => (true, c)
  | (key, value) :: rest =>
      if fails i then (false, c)
      else upsert_entries fails (S i) rest (<[key := String_ value]> c)
  end.

(** [server.js]: one awaited [pool.query] per entry, each committed on its
    own; a refused statement leaves the loop through the [catch]. *)
Definition put_api_admin_config (req : request) (fails : nat -> bool)
    (updates : list (string * jsval)) : store -> response * store :=
  requireAdmin req (fun s =>
    let '(ok, c) := upsert_entries fails 0 updates (config s) in
    (if ok then Success else DatabaseError,
     mkStore (drops s) (streaks s) c)).

(** [db.transaction(fn)]: the writes of [fn] are kept when it returns and
    rolled back when it throws. *)
Definition transaction (fn : gmap string string -> bool * gmap string string)
    (c : gmap string string) : bool * gmap string string :=
  let '(ok, c') := fn c in
  if ok then (true, c') else (false, c).

(** The sibling file: the same loop inside one transaction; the exception
    of a refused statement leaves the handler and the framework answers
    500. *)
Definition put_api_admin_config_sqlite (req : request) (fails : nat -> bool)
    (updates : list (string * jsval)) : store -> response * store :=
  requireAdmin req (fun s =>
    let '(ok, c) := transaction (upsert_entries fails 0 updates) (config s) in
    (if ok then Success else DatabaseError,
     mkStore (drops s) (streaks s) c)).

(** *** POST /api/admin/reset-streaks *)
Definition post_api_admin_reset_streaks (req : request)
    : store -> response * store :=
  requireAdmin req (fun s =>
    (Success,
     mkStore (drops s)
       ((fun r => mkStreak 0 (longest_streak r) (last_drop_date r))
          <$> streaks s)
       (config s))).

(** *** POST /api/admin/reset-counter *)
Definition post_api_admin_reset_counter (req : request) (now : Z)
    : store -> response * store :=
  requireAdmin req (fun s =>
    let today := isoDate now in
    (Success,
     mkStore (filter (fun r => on_day today r = false) (drops s))
       (streaks s) (config s))).

(** *** GET /api/admin/config and the config part of GET /api/status *)
Definition get_config (s : store) : gmap string string := config s.

(** ** The service as a transition system *)

Inductive operation : Type :=
| Restart
| SubmitDrop (req : request) (body : drop_body) (clk : drop_clock)
| AdminDrop (req : request) (body : drop_body) (now_insert : Z)
| ConfigUpsert (req : request) (fails : nat -> bool)
    (updates : list (string * jsval))
| ConfigUpsertSqlite (req : request) (fails : nat -> bool)
    (updates : list (string * jsval))
| ResetStreaks (req : request)
| ResetCounter (req : request) (now : Z).

Definition run (o : operation) (s : store) : response * store :=
  match o with
  | Restart => (Success, initDB s)
  | SubmitDrop req body clk => post_api_drop req body clk s
  | AdminDrop req body t => post_api_admin_drop req body t s
  | ConfigUpsert req fails updates => put_api_admin_config req fails updates s
  | ConfigUpsertSqlite req fails updates =>
      put_api_admin_config_sqlite req fails updates s
  | ResetStreaks req => post_api_admin_reset_streaks req s
  | ResetCounter req now => post_api_admin_reset_counter req now s
  end.

(** The states the service can be in: the freshly initialised database and
    whatever the operations make of it. *)
Inductive reachable : store -> Prop :=
| reachable_init : reachable (initDB empty_store)
| reachable_run o s : reachable s -> reachable (run o s).2.

(** A sequence of requests served one after the other. *)
Fixpoint serve (calls : list (request * drop_body * drop_clock)) (s : store)
    : list response * store :=
  match calls with
  | [] => ([], s)
  | (req, body, clk) :: rest =>
      let '(r, s1) := post_api_drop req body clk s in
      let '(rs, s2) := serve rest s1 in
      (r :: rs, s2)
  end.

(** How many of the responses are acceptances. *)
Definition accepted (r : response) : bool :=
  match r with DropOk _ => true | _ => false end.

Definition acceptances (rs : list response) : Z :=
  Z.of_nat (length (filter (fun r => accepted r = true) rs)).

(** ** What the properties speak about *)

(** The daily cap is reached: the parsed limit is a number and the
    device's count for today is at least that number. *)
Definition cap_reached (req : request) (clk : drop_clock) (s : store) : Prop :=
  exists N, maxDrops (config s) = Int N /\
    N <= count_device_on_day (getDeviceHash req) (today_of clk) (drops s).

(** The mode is one of the three of the enumeration. *)
Definition valid_mode (v : jsval) : Prop :=
  v = JStr "type" \/ v = JStr "speak" \/ v = JStr "draw".

(** The flag of the mode is stored as the string false. *)
Definition flag_off (s : store) (v : jsval) : Prop :=
  exists m, v = JStr m /\ config s !! (m +:+ "_enabled") = Some "false".

(** Nothing was written. *)
Definition no_mutation (s s' : store) : Prop := s' = s.

(** The row an accepted request appends to the ledger. *)
Definition drop_of (req : request) (body : drop_body) (clk : drop_clock)
    (s : store) : drop_row :=
  mkDrop (getDeviceHash req) (mode_of body)
    (JNumber (Math_min (ToNumber (charCount_of body)) (maxChars (config s))))
    (now_insert clk).

(** The streak row an accepted request leaves for its device. *)
Definition streak_after (old : option streak_row) (today yesterday : Z)
    : streak_row :=
  match old with
  | Some streak =>
      let n := newStreak streak today yesterday in
      mkStreak n (Z.max n (longest_streak streak)) (Some today)
  | None => mkStreak 1 1 (Some today)
  end.

(** One insertion into the ledger, one upsert of the device's streak,
    nothing else. *)
Definition one_drop_one_streak (d : string) (s s' : store) : Prop :=
  (exists row, drops s' = (drops s ++ [row])%list /\ device_hash row = d) /\
  (exists st, streaks s' = <[d := st]> (streaks s)) /\
  config s' = config s.



(** Every streak row has a current streak between 0 and its longest. *)
Definition streaks_ok (s : store) : Prop :=
  forall d r, streaks s !! d = Some r ->
    0 <= current_streak r <= longest_streak r.

(** Every pair written: keys present are overwritten, others inserted,
    values turned into strings. *)
Definition all_written (updates : list (string * jsval))
    (c : gmap string string) : gmap string string :=
  fold_left (fun c kv => <[kv.1 := String_ kv.2]> c) updates c.

(** ** Concrete inputs

    The requests, clocks and stores at which the handlers are evaluated
    further down.  Day 19723 is 2024-01-01. *)

(** Stand-ins for the platform when a handler is evaluated: no request
    below submits a string as a size, and the device is identified by the
    undigested string. *)
Definition no_string_sizes : string -> num := fun _ => NaN.
Definition undigested : string -> string := fun raw => raw.
Definition default_admin_key : string := "change-this-in-production".

Definition phone : request := mkReq (Some "10.0.0.7") (Some "Mozilla/5.0") None.
Definition phone_hash : string := "10.0.0.7Mozilla/5.0".
Definition operator : request :=
  mkReq (Some "10.0.0.1") (Some "curl/8.5") (Some "change-this-in-production").

Definition empty_body : drop_body := mkBody None None.

(** 2024-01-01T12:00:00.000Z for the three readings. *)
Definition noon : drop_clock :=
  mkClock 1704110400000 1704110400000 1704110400000.

(** 2024-01-01T23:59:59.999Z on entry and at the insertion,
    2024-01-02T00:00:00.001Z when the streak is brought up to date. *)
Definition across_midnight : drop_clock :=
  mkClock 1704153599999 1704153599999 1704153600001.

Definition seeded : store := initDB empty_store.

(** The device dropped at noon on 2024-01-01. *)
Definition dropped_today (c : gmap string string) : store :=
  mkStore
    [mkDrop phone_hash (JStr "type") (JNumber (Int 0)) 1704110400000]
    {[ phone_hash := mkStreak 3 3 (Some 19723) ]}
    c.

(** The device last dropped on 2023-12-31 and has a streak of 3. *)
Definition dropped_yesterday : store :=
  mkStore
    [mkDrop phone_hash (JStr "type") (JNumber (Int 0)) 1704024000000]
    {[ phone_hash := mkStreak 3 3 (Some 19722) ]}
    (config seeded).

(** ** The read-only routes *)

(** [x || 0] on a counter of the streak table. *)
Definition or_zero (x : Z) : Z := if decide (x = 0) then 0 else x.

(** The body of the answer of [GET /api/status]. *)
Record status_body : Type := mkStatus {
  status_todayCount : Z;
  status_hasDroppedToday : bool;
  status_streak : Z;
  status_longestStreak : Z;
  status_config : gmap string string
}.

(** *** GET /api/status (the same in both files) *)
Definition get_api_status (req : request) (now : Z) (s : store) : status_body :=
  let deviceHash := getDeviceHash req in
  let today := isoDate now in
  let todayCount := count_on_day today (drops s) in
  let userDrops := count_device_on_day deviceHash today (drops s) in
  let config := config s in
  let streak := streaks s !! deviceHash in
  mkStatus todayCount
    (js_ge (Int userDrops) (maxDrops config))
    (match streak with Some r => or_zero (current_streak r) | None => 0 end)
    (match streak with Some r => or_zero (longest_streak r) | None => 0 end)
    config.

(** *** GET /api/count *)
Definition get_api_count (now : Z) (s : store) : Z :=
  count_on_day (isoDate now) (drops s).

(** [SELECT COUNT( * ) FROM drops WHERE DATE(created_at) >= $1] *)
Definition count_since (day : Z) (l : list drop_row) : Z :=
  Z.of_nat (length (filter
    (fun r => bool_decide (day <= isoDate (created_at r)) = true) l)).

(** [SELECT COUNT( * ) FROM drops] *)
Definition count_all (l : list drop_row) : Z := Z.of_nat (length l).

Definition ms_per_hour : Z := 3600000.

(** The hour of the day of a timestamp, [EXTRACT(HOUR FROM created_at)]. *)
Definition hour_of (t : Z) : Z := (t `mod` ms_per_day) `div` ms_per_hour.

Definition count_on_day_at_hour (day hour : Z) (l : list drop_row) : Z :=
  Z.of_nat (length (filter
    (fun r => on_day day r && bool_decide (hour_of (created_at r) = hour) = true)
    l)).

(** [SELECT hour, COUNT( * ) ... WHERE DATE(created_at) = $1 GROUP BY hour
    ORDER BY hour]: one row for each hour that has a drop, in ascending
    order of the hour. *)
Definition hourly_on_day (day : Z) (l : list drop_row) : list (Z * Z) :=
  filter (fun row => 0 < row.2)
    ((fun hour => (hour, count_on_day_at_hour day hour l)) <$> seqZ 0 24).

(** [SELECT COUNT(DISTINCT device_hash) FROM drops WHERE DATE(created_at) = $1] *)
Definition unique_on_day (day : Z) (l : list drop_row) : Z :=
  Z.of_nat (length (remove_dups
    (device_hash <$> filter (fun r => on_day day r = true) l))).

(** The three readings of the clock of [GET /api/admin/stats]. *)
Record stats_clock : Type := mkStatsClock {
  now_today : Z;
  now_yesterday : Z;
  now_weekAgo : Z
}.

(** The numeric part of the answer of [GET /api/admin/stats].  The fields
    [modes] and [recent], whose row order the store leaves open, are not
    part of the record. *)
Record stats_body : Type := mkStats {
  stats_today : Z;
  stats_yesterday : Z;
  stats_thisWeek : Z;
  stats_allTime : Z;
  stats_uniqueToday : Z;
  stats_hourly : list (Z * Z)
}.

(** *** GET /api/admin/stats; [None] is the 401 of [requireAdmin]. *)
Definition get_api_admin_stats (req : request) (clk : stats_clock) (s : store)
    : option stats_body :=
  if decide (x_admin_key req = Some ADMIN_KEY) then
    let today := isoDate (now_today clk) in
    let yesterday := isoDate (now_yesterday clk - ms_per_day) in
    let weekAgo := isoDate (now_weekAgo clk - 7 * ms_per_day) in
    Some (mkStats
      (count_on_day today (drops s))
      (count_on_day yesterday (drops s))
      (count_since weekAgo (drops s))
      (count_all (drops s))
      (unique_on_day today (drops s))
      (hourly_on_day today (drops s)))
  else None.

(** ** The store refusing a statement *)

Inductive backend : Type :=
| Postgres   (* server.js *)
| Sqlite.    (* the sibling file *)

(** The range of an INTEGER column of PostgreSQL. *)
Definition is_int4 (n : num) : bool :=
  match n with
  | Int z => bool_decide (- 2 ^ 31 <= z < 2 ^ 31)
  | NaN => false
  end.

(** Whether the store takes a number for [char_count]: PostgreSQL refuses
    what is not an integer of the range of the column; SQLite takes every
    number and keeps NaN as NULL. *)
Definition takes_char_count (b : backend) (n : num) : bool :=
  match b with
  | Postgres => is_int4 n
  | Sqlite => true
  end.

(** *** POST /api/drop with a store that may refuse

    [fails i] tells whether the statement number [i] of the request is
    refused: 0 the read of the config, 1 the count of the device, 2 the
    insertion of the drop, 3 the read of the streak, 4 its update or
    insertion, 5 the count of the day.  In [server.js] the refusal is
    caught and answered 500; in the sibling file the exception leaves the
    handler and the framework answers 500.  Each statement is committed on
    its own, so what was written before a refusal stays. *)
Definition post_api_drop_on (b : backend) (fails : nat -> bool)
    (req : request) (body : drop_body) (clk : drop_clock) (s : store)
    : response * store :=
  let deviceHash := getDeviceHash req in
  let today := today_of clk in
  let mode := mode_of body in
  let charCount := charCount_of body in
  if fails 0%nat then (DatabaseError, s) else
  let config := config s in
  let maxDrops := parseInt (or_else (config !! "drops_per_day") "1") in
  if fails 1%nat then (DatabaseError, s) else
  let userDrops := count_device_on_day deviceHash today (drops s) in
  if js_ge (Int userDrops) maxDrops then (AlreadyDroppedToday, s)
  else if negb (includes validModes mode) then (InvalidMode, s)
  else if mode_disabled config mode then (ModeDisabled, s)
  else
    let size :=
      Math_min (ToNumber charCount)
        (parseInt (or_else (config !! "max_chars") "200")) in
    if fails 2%nat || negb (takes_char_count b size) then (DatabaseError, s)
    else
      let drops1 :=
        (drops s ++ [mkDrop deviceHash mode (JNumber size) (now_insert clk)])%list in
      let s1 := mkStore drops1 (streaks s) config in
      if fails 3%nat then (DatabaseError, s1) else
      let yesterday := yesterday_of clk in
      let streaks1 :=
        match streaks s !! deviceHash with
        | Some streak =>
            let newStreak := newStreak streak today yesterday in
            let longest := Z.max newStreak (longest_streak streak) in
            <[deviceHash := mkStreak newStreak longest (Some today)]> (streaks s)
        | None =>
            <[deviceHash := mkStreak 1 1 (Some today)]> (streaks s)
        end in
      if fails 4%nat then (DatabaseError, s1) else
      let s2 := mkStore drops1 streaks1 config in
      if fails 5%nat then (DatabaseError, s2) else
      (DropOk (count_on_day today drops1), s2).

(** The store refuses no statement. *)
Definition none_refused (fails : nat -> bool) : Prop :=
  forall i, fails i = false.

(** The size a request asks the store to record. *)
Definition size_of (body : drop_body) (s : store) : num :=
  Math_min (ToNumber (charCount_of body))
    (parseInt (or_else (config s !! "max_chars") "200")).

(** One insertion into the ledger and nothing else. *)
Definition one_drop_no_streak (d : string) (s s' : store) : Prop :=
  (exists row, drops s' = (drops s ++ [row])%list /\ device_hash row = d) /\
  streaks s' = streaks s /\
  config s' = config s.

(** ** Vocabulary of the further properties *)

(** The request of an operation that goes through [requireAdmin]. *)
Definition admin_request (o : operation) : option request :=
  match o with
  | Restart | SubmitDrop _ _ _ => None
  | AdminDrop req _ _ | ConfigUpsert req _ _ | ConfigUpsertSqlite req _ _
  | ResetStreaks req | ResetCounter req _ => Some req
  end.

Definition is_reset_counter (o : operation) : bool :=
  match o with ResetCounter _ _ => true | _ => false end.

(** Calls of one device on the days [first], [first + 1], ..., each with the
    day before its own as [yesterday]. *)
Definition on_consecutive_days (d : string) (first : Z)
    (calls : list (request * drop_body * drop_clock)) : Prop :=
  forall i call, calls !! i = Some call ->
    getDeviceHash call.1.1 = d /\
    today_of call.2 = first + Z.of_nat i /\
    yesterday_of call.2 = first + Z.of_nat i - 1.

(** Every streak row has a longest streak of at least 1 and a date. *)
Definition rows_dated (s : store) : Prop :=
  forall d r, streaks s !! d = Some r ->
    1 <= longest_streak r /\ is_Some (last_drop_date r).

(** Every row of the ledger belongs to the admin identity or to a device
    that has a streak row. *)
Definition no_orphan_drop (s : store) : Prop :=
  forall row, row ∈ drops s ->
    device_hash row = "admin" \/ is_Some (streaks s !! device_hash row).

(** The index of the first refused statement among the first [n]. *)
Fixpoint first_refused (fails : nat -> bool) (i n : nat) : option nat :=
  match n with
  | O => None
  | S n' => if fails i then Some i else first_refused fails (S i) n'
  end.

(** Two streak rows are equal when their three fields are. *)
Ltac same_streak_row :=
  f_equal; f_equal; try done; try lia; f_equal; lia.

(** ** The admission path, case by case *)

Lemma js_ge_true a b :
  js_ge a b = true <-> exists x y, a = Int x /\ b = Int y /\ y <= x.
Proof.
  split.
  - destruct a as [x|], b as [y|]; simpl; try discriminate.
    intros H. apply bool_decide_eq_true in H. eauto.
  - intros (x & y & -> & -> & H). simpl. by apply bool_decide_eq_true.
Qed.

Lemma cap_reached_iff req clk s :
  cap_reached req clk s <->
  js_ge (Int (count_device_on_day (getDeviceHash req) (today_of clk) (drops s)))
    (maxDrops (config s)) = true.
Proof.
  rewrite js_ge_true. split.
  - intros (N & HN & Hle). eauto.
  - intros (x & y & [= <-] & HN & Hle). exists y. auto.
Qed.

Lemma includes_validModes v :
  includes validModes v = true <-> valid_mode v.
Proof.
  unfold valid_mode, includes, validModes. destruct v as [| |n|m]; simpl;
    try (split; [discriminate | intros [H|[H|H]]; discriminate]).
  rewrite bool_decide_eq_true. rewrite !elem_of_cons, elem_of_nil.
  split.
  - intros [-> | [-> | [-> | H]]]; auto. contradiction.
  - intros [[= ->]|[[= ->]|[= ->]]]; auto.
Qed.

Lemma mode_disabled_iff s v :
  valid_mode v -> (mode_disabled (config s) v = true <-> flag_off s v).
Proof.
  intros Hv. unfold mode_disabled, flag_off. rewrite bool_decide_eq_true.
  destruct Hv as [-> | [-> | ->]]; simpl; split;
    try (intros H; eexists; split; [reflexivity | exact H]);
    intros (m & [= <-] & H); exact H.
Qed.

Lemma post_api_drop_capped req body clk s :
  cap_reached req clk s ->
  post_api_drop req body clk s = (AlreadyDroppedToday, s).
Proof.
  intros H. apply cap_reached_iff in H.
  unfold post_api_drop. cbv zeta. by rewrite H.
Qed.

Lemma post_api_drop_invalid req body clk s :
  ~ cap_reached req clk s -> ~ valid_mode (mode_of body) ->
  post_api_drop req body clk s = (InvalidMode, s).
Proof.
  intros Hc Hv. rewrite cap_reached_iff in Hc. rewrite <- includes_validModes in Hv.
  apply not_true_is_false in Hc, Hv.
  unfold post_api_drop. cbv zeta. by rewrite Hc, Hv.
Qed.

Lemma post_api_drop_disabled req body clk s :
  ~ cap_reached req clk s -> valid_mode (mode_of body) ->
  flag_off s (mode_of body) ->
  post_api_drop req body clk s = (ModeDisabled, s).
Proof.
  intros Hc Hv Hf. rewrite cap_reached_iff in Hc.
  apply (mode_disabled_iff s) in Hf; [|done].
  apply includes_validModes in Hv. apply not_true_is_false in Hc.
  unfold post_api_drop. cbv zeta. by rewrite Hc, Hv, Hf.
Qed.

Lemma post_api_drop_accepted req body clk s :
  ~ cap_reached req clk s -> valid_mode (mode_of body) ->
  ~ flag_off s (mode_of body) ->
  post_api_drop req body clk s =
    (DropOk (count_on_day (today_of clk)
               (drops s ++ [drop_of req body clk s])),
     mkStore (drops s ++ [drop_of req body clk s])
       (<[getDeviceHash req :=
            streak_after (streaks s !! getDeviceHash req)
              (today_of clk) (yesterday_of clk)]> (streaks s))
       (config s)).
Proof.
  intros Hc Hv Hf. rewrite cap_reached_iff in Hc.
  rewrite <- (mode_disabled_iff s) in Hf; [|done].
  apply includes_validModes in Hv. apply not_true_is_false in Hc, Hf.
  unfold post_api_drop. cbv zeta. rewrite Hc, Hv, Hf. simpl.
  unfold drop_of, streak_after.
  by destruct (streaks s !! getDeviceHash req).
Qed.

(** The four outcomes, and what each says about the request. *)
Lemma post_api_drop_inv req body clk s :
  (cap_reached req clk s /\
     post_api_drop req body clk s = (AlreadyDroppedToday, s)) \/
  (~ cap_reached req clk s /\ ~ valid_mode (mode_of body) /\
     post_api_drop req body clk s = (InvalidMode, s)) \/
  (~ cap_reached req clk s /\ valid_mode (mode_of body) /\
     flag_off s (mode_of body) /\
     post_api_drop req body clk s = (ModeDisabled, s)) \/
  (~ cap_reached req clk s /\ valid_mode (mode_of body) /\
     ~ flag_off s (mode_of body) /\
     post_api_drop req body clk s =
       (DropOk (count_on_day (today_of clk)
                  (drops s ++ [drop_of req body clk s])),
        mkStore (drops s ++ [drop_of req body clk s])
          (<[getDeviceHash req :=
               streak_after (streaks s !! getDeviceHash req)
                 (today_of clk) (yesterday_of clk)]> (streaks s))
          (config s))).
Proof.
  destruct (decide (js_ge (Int (count_device_on_day (getDeviceHash req)
              (today_of clk) (drops s))) (maxDrops (config s)) = true))
    as [Hc|Hc]; rewrite <- cap_reached_iff in Hc.
  { left. eauto using post_api_drop_capped. }
  destruct (decide (includes validModes (mode_of body) = true)) as [Hv|Hv];
    rewrite includes_validModes in Hv.
  2: { right; left. eauto using post_api_drop_invalid. }
  destruct (decide (mode_disabled (config s) (mode_of body) = true)) as [Hf|Hf];
    rewrite (mode_disabled_iff s _ Hv) in Hf.
  { right; right; left. eauto using post_api_drop_disabled. }
  right; right; right. eauto using post_api_drop_accepted.
Qed.

Lemma post_api_drop_ok_inv req body clk s n :
  (post_api_drop req body clk s).1 = DropOk n ->
  post_api_drop req body clk s =
    (DropOk (count_on_day (today_of clk)
               (drops s ++ [drop_of req body clk s])),
     mkStore (drops s ++ [drop_of req body clk s])
       (<[getDeviceHash req :=
            streak_after (streaks s !! getDeviceHash req)
              (today_of clk) (yesterday_of clk)]> (streaks s))
       (config s)).
Proof.
  destruct (post_api_drop_inv req body clk s)
    as [[_ E]|[(_ & _ & E)|[(_ & _ & _ & E)|(_ & _ & _ & E)]]];
    rewrite E; simpl; try discriminate; done.
Qed.

Lemma post_api_drop_config req body clk s :
  config (post_api_drop req body clk s).2 = config s.
Proof.
  destruct (post_api_drop_inv req body clk s)
    as [[_ E]|[(_ & _ & E)|[(_ & _ & _ & E)|(_ & _ & _ & E)]]];
    by rewrite E.
Qed.

(** ** The streak transition *)

(** X26.  When [yesterday] is the day before [today] the update of an
    accepted drop follows the transition rule case by case. *)
Lemma streak_rule_when_dates_agree req body clk s n :
  (post_api_drop req body clk s).1 = DropOk n ->
  yesterday_of clk = today_of clk - 1 ->
  let d := getDeviceHash req in
  let today := today_of clk in
  let s' := (post_api_drop req body clk s).2 in
  match streaks s !! d with
  | None => streaks s' !! d = Some (mkStreak 1 1 (Some today))
  | Some old =>
      exists new, streaks s' !! d = Some new /\
        (last_drop_date old = Some (today - 1) ->
           current_streak new = current_streak old + 1) /\
        (last_drop_date old = Some today ->
           current_streak new = current_streak old) /\
        (last_drop_date old <> Some (today - 1) ->
         last_drop_date old <> Some today -> current_streak new = 1) /\
        longest_streak new = Z.max (longest_streak old) (current_streak new) /\
        last_drop_date new = Some today
  end.
Proof.
  intros Hok Hy. cbv zeta. rewrite (post_api_drop_ok_inv _ _ _ _ _ Hok). simpl.
  rewrite lookup_insert_eq.
  destruct (streaks s !! getDeviceHash req) as [old|]; simpl; [|done].
  eexists. split; [reflexivity|]. simpl. unfold newStreak. rewrite Hy.
  repeat case_decide; split_and!; intros; try congruence; try lia.
  all: match goal with
       | H1 : last_drop_date ?o = Some ?a, H2 : last_drop_date ?o = Some ?b |- _ =>
           rewrite H1 in H2; injection H2; lia
       end.
Qed.

(** ** At most [drops_per_day] acceptances a day *)

Lemma count_device_on_day_snoc d day l row :
  count_device_on_day d day (l ++ [row]) =
  count_device_on_day d day l +
  (if bool_decide (device_hash row = d) && on_day day row then 1 else 0).
Proof.
  unfold count_device_on_day. rewrite filter_app, length_app.
  rewrite Nat2Z.inj_add. f_equal.
  destruct (bool_decide (device_hash row = d) && on_day day row) eqn:E.
  - by rewrite filter_cons_True.
  - rewrite filter_cons_False; [done|]. by rewrite E.
Qed.


Lemma admissions_nonneg rs : 0 <= acceptances rs.
Proof. unfold acceptances. lia. Qed.




(** ** The longest streak *)

Lemma requireAdmin_cases req next s :
  requireAdmin req next s = next s \/ requireAdmin req next s = (Unauthorized, s).
Proof. unfold requireAdmin. case_decide; auto. Qed.

Lemma newStreak_bounds old today yesterday :
  0 <= current_streak old -> 0 <= newStreak old today yesterday.
Proof. unfold newStreak. repeat case_decide; lia. Qed.

(** What an operation does to the streak table. *)
Lemma run_streaks o s :
  streaks (run o s).2 = streaks s \/
  (exists d today yesterday,
     streaks (run o s).2 =
       <[d := streak_after (streaks s !! d) today yesterday]> (streaks s)) \/
  streaks (run o s).2 =
    (fun r => mkStreak 0 (longest_streak r) (last_drop_date r)) <$> streaks s.
Proof.
  destruct o as [|req body clk|req body t|req fails updates
                 |req fails updates|req|req now]; simpl.
  - by left.
  - destruct (post_api_drop_inv req body clk s)
      as [[_ E]|[(_ & _ & E)|[(_ & _ & _ & E)|(_ & _ & _ & E)]]];
      rewrite E; simpl; eauto 10.
  - unfold post_api_admin_drop.
    destruct (requireAdmin_cases req
      (fun s => (Success,
         mkStore (drops s ++ [mkDrop "admin" (mode_of body) (charCount_of body) t])
           (streaks s) (config s))) s) as [E|E]; rewrite E; by left.
  - unfold put_api_admin_config, requireAdmin. case_decide; [|by left].
    destruct (upsert_entries fails 0 updates (config s)). by left.
  - unfold put_api_admin_config_sqlite, requireAdmin. case_decide; [|by left].
    destruct (transaction (upsert_entries fails 0 updates) (config s)). by left.
  - unfold post_api_admin_reset_streaks, requireAdmin. case_decide; simpl; auto.
  - unfold post_api_admin_reset_counter, requireAdmin. case_decide; simpl; auto.
Qed.

Lemma run_streaks_ok o s : streaks_ok s -> streaks_ok (run o s).2.
Proof.
  intros Hok d r. destruct (run_streaks o s) as [E|[(d' & t & y & E)|E]];
    rewrite E.
  - apply Hok.
  - destruct (decide (d' = d)) as [->|Hne].
    + rewrite lookup_insert_eq. intros [= <-].
      destruct (streaks s !! d) as [old|] eqn:Hold; simpl; [|lia].
      pose proof (Hok d old Hold).
      pose proof (newStreak_bounds old t y). lia.
    + rewrite lookup_insert_ne by done. apply Hok.
  - rewrite lookup_fmap. destruct (streaks s !! d) as [old|] eqn:Hold;
      simpl; [|done].
    intros [= <-]. simpl. pose proof (Hok d old Hold). lia.
Qed.

Lemma reachable_streaks_ok s : reachable s -> streaks_ok s.
Proof.
  induction 1 as [|o s _ IH].
  - intros d r. simpl. by rewrite lookup_empty.
  - by apply run_streaks_ok.
Qed.

(** C6.  From a reachable state, whichever operation runs (a drop, an
    admin drop, a config upsert in either file, a reset of the streaks or
    of the counter, a restart), every streak row afterwards has its
    longest streak at least its current streak, and every row that was
    there before is still there with a longest streak that did not go
    down. *)
Theorem longest_streak_invariant o s :
  reachable s ->
  (forall d r, streaks (run o s).2 !! d = Some r ->
     current_streak r <= longest_streak r) /\
  (forall d r, streaks s !! d = Some r ->
     exists r', streaks (run o s).2 !! d = Some r' /\
       longest_streak r <= longest_streak r').
Proof.
  intros Hr. apply reachable_streaks_ok in Hr. split.
  - intros d r H. apply (run_streaks_ok o s Hr) in H. lia.
  - intros d r H. destruct (run_streaks o s) as [E|[(d' & t & y & E)|E]];
      rewrite E.
    + exists r. split; [done|lia].
    + destruct (decide (d' = d)) as [->|Hne].
      * rewrite lookup_insert_eq, H. eexists. split; [reflexivity|].
        simpl. lia.
      * rewrite lookup_insert_ne by done. exists r. split; [done|lia].
    + rewrite lookup_fmap, H. simpl. eexists. split; [reflexivity|].
      simpl. lia.
Qed.

(** ** The bulk config upsert *)

Lemma upsert_entries_ok fails updates : forall i c c',
  upsert_entries fails i updates c = (true, c') -> c' = all_written updates c.
Proof.
  induction updates as [|[k v] updates IH]; intros i c c' H; simpl in *.
  - by injection H as <-.
  - destruct (fails i); [discriminate|]. by apply IH in H.
Qed.

Lemma upsert_entries_no_failure updates : forall i c,
  upsert_entries (fun _ => false) i updates c = (true, all_written updates c).
Proof.
  induction updates as [|[k v] updates IH]; intros i c; simpl; [done|].
  apply IH.
Qed.

(** The handler of the sibling file is all or nothing: it answers Success
    with every pair written, or fails and leaves the config as it was. *)
Lemma put_api_admin_config_sqlite_atomic req fails updates s :
  let r := (put_api_admin_config_sqlite req fails updates s).1 in
  let s' := (put_api_admin_config_sqlite req fails updates s).2 in
  (r = Success /\ config s' = all_written updates (config s)) \/
  (r <> Success /\ config s' = config s).
Proof.
  cbv zeta. unfold put_api_admin_config_sqlite, requireAdmin.
  case_decide; [|right; by split].
  unfold transaction.
  destruct (upsert_entries fails 0 updates (config s)) as [[|] c'] eqn:E; simpl.
  - left. split; [done|]. by eapply upsert_entries_ok.
  - right. by split.
Qed.

(** The handler of [server.js] writes every pair when no statement is
    refused. *)
Lemma put_api_admin_config_all req updates s :
  x_admin_key req = Some ADMIN_KEY ->
  put_api_admin_config req (fun _ => false) updates s =
    (Success, mkStore (drops s) (streaks s) (all_written updates (config s))).
Proof.
  intros Hk. unfold put_api_admin_config, requireAdmin.
  rewrite decide_True by done. by rewrite upsert_entries_no_failure.
Qed.

(** ** One reading of the clock *)

(** Had the streak update used the reading taken on entry, [yesterday]
    would be the day before [today]. *)
Lemma yesterday_of_single_now clk :
  now_streak clk = now_entry clk -> yesterday_of clk = today_of clk - 1.
Proof.
  intros H. unfold yesterday_of, today_of, isoDate, ms_per_day. rewrite H.
  replace (now_entry clk - 86400000) with (now_entry clk + (-1) * 86400000) by lia.
  rewrite Z.div_add by lia. lia.
Qed.

(** * Further properties *)

(** ** Numbers written by [String] and read by [parseInt] *)

Lemma digit_value_pretty_N_char d :
  (d < 10)%N -> digit_value (pretty_N_char d) = Some (Z.of_N d).
Proof.
  intros H.
  assert (d = 0 \/ d = 1 \/ d = 2 \/ d = 3 \/ d = 4 \/ d = 5 \/ d = 6 \/
          d = 7 \/ d = 8 \/ d = 9)%N as Hd by lia.
  repeat (destruct Hd as [-> | Hd]; [reflexivity|]). by subst.
Qed.

(** Reading the digits that [pretty_N_go] writes in front of [s]. *)
Lemma parse_digits_pretty_N_go x :
  (0 < x)%N ->
  exists p, forall acc s,
    parse_digits 10 acc (pretty_N_go x s) =
    parse_digits 10 (Some (default 0 acc * p + Z.of_N x)) s.
Proof.
  induction (N.lt_wf_0 x) as [x _ IH]. intros Hx.
  assert (Hd : digit_value (pretty_N_char (x `mod` 10)) =
               Some (Z.of_N (x `mod` 10)%N)).
  { apply digit_value_pretty_N_char. by apply N.mod_lt. }
  assert (Hlt : (Z.of_N (x `mod` 10)%N <? 10)%Z = true).
  { apply Z.ltb_lt. pose proof (N.mod_lt x 10). lia. }
  assert (Hx10 : Z.of_N x = 10 * Z.of_N (x `div` 10)%N + Z.of_N (x `mod` 10)%N).
  { rewrite (N.div_mod x 10) at 1 by done. lia. }
  destruct (decide (x < 10)%N) as [Hsmall|Hbig].
  - exists 10. intros acc s. rewrite pretty_N_go_step by done.
    rewrite N.div_small by done. rewrite pretty_N_go_0. simpl.
    rewrite Hd, Hlt. rewrite N.mod_small by done. done.
  - destruct (IH (x `div` 10)%N) as [p Hp].
    { apply N.div_lt; lia. }
    { apply N.div_str_pos. lia. }
    exists (p * 10). intros acc s. rewrite pretty_N_go_step by done.
    rewrite Hp. simpl. rewrite Hd, Hlt. simpl. f_equal. f_equal. lia.
Qed.

(** The text of a positive number starts with a digit from 1 to 9. *)
Lemma pretty_N_go_head x s :
  (0 < x)%N ->
  exists d t, (0 < d < 10)%N /\ pretty_N_go x s = String (pretty_N_char d) t.
Proof.
  revert s. induction (N.lt_wf_0 x) as [x _ IH]. intros s Hx.
  rewrite pretty_N_go_step by done.
  destruct (decide (x < 10)%N) as [Hsmall|Hbig].
  - rewrite N.div_small by done. rewrite pretty_N_go_0.
    exists x, s. rewrite N.mod_small by done. split; [lia|done].
  - apply IH.
    + apply N.div_lt; lia.
    + apply N.div_str_pos. lia.
Qed.

(** A first byte below 128 that is not white space ends the trimming. *)
Lemma trimStart_ascii c t :
  is_StrWhiteSpaceChar c = false ->
  (nat_of_ascii c <? 128)%nat = true ->
  trimStart (String c t) = String c t.
Proof.
  intros Hw Hlt. apply Nat.ltb_lt in Hlt.
  assert (H1 : forall k, (128 <= k)%nat -> (nat_of_ascii c =? k)%nat = false).
  { intros k Hk. apply Nat.eqb_neq. lia. }
  destruct t as [|c2 [|c3 r3]]; cbn [trimStart]; rewrite Hw; try done;
    cbv zeta; rewrite !H1 by lia; reflexivity.
Qed.

Lemma parseInt_digits d t :
  (0 < d < 10)%N ->
  parseInt (String (pretty_N_char d) t) =
  match parse_digits 10 None (String (pretty_N_char d) t) with
  | Some v => Int (1 * v)
  | None => NaN
  end.
Proof.
  intros H.
  assert (d = 1 \/ d = 2 \/ d = 3 \/ d = 4 \/ d = 5 \/ d = 6 \/
          d = 7 \/ d = 8 \/ d = 9)%N as Hd by lia.
  unfold parseInt.
  repeat (destruct Hd as [-> | Hd];
          [rewrite trimStart_ascii by reflexivity; reflexivity|]).
  subst. rewrite trimStart_ascii by reflexivity. reflexivity.
Qed.

Lemma parseInt_minus_digits d t :
  (0 < d < 10)%N ->
  parseInt (String "-" (String (pretty_N_char d) t)) =
  match parse_digits 10 None (String (pretty_N_char d) t) with
  | Some v => Int (-1 * v)
  | None => NaN
  end.
Proof.
  intros H.
  assert (d = 1 \/ d = 2 \/ d = 3 \/ d = 4 \/ d = 5 \/ d = 6 \/
          d = 7 \/ d = 8 \/ d = 9)%N as Hd by lia.
  unfold parseInt. rewrite trimStart_ascii by reflexivity.
  repeat (destruct Hd as [-> | Hd]; [reflexivity|]). by subst.
Qed.

Lemma parseInt_pretty_pos p : parseInt (pretty (N.pos p)) = Int (Z.pos p).
Proof.
  unfold pretty, pretty_N. rewrite decide_False by done.
  destruct (pretty_N_go_head (N.pos p) "") as (d & t & Hd & E); [lia|].
  destruct (parse_digits_pretty_N_go (N.pos p)) as [q Hq]; [lia|].
  rewrite E, parseInt_digits by done. rewrite <- E, Hq. simpl.
  f_equal.
Qed.

Lemma parseInt_pretty_Z (z : Z) : parseInt (pretty z) = Int z.
Proof.
  destruct z as [|p|p].
  - reflexivity.
  - apply parseInt_pretty_pos.
  - unfold pretty, pretty_Z. change (pretty p) with (pretty (N.pos p)).
    unfold pretty at 1, pretty_N. rewrite decide_False by done.
    destruct (pretty_N_go_head (N.pos p) "") as (d & t & Hd & E); [lia|].
    destruct (parse_digits_pretty_N_go (N.pos p)) as [q Hq]; [lia|].
    change (parseInt (String "-" (pretty_N_go (N.pos p) "")) = Int (Z.neg p)).
    rewrite E, parseInt_minus_digits by done.
    rewrite <- E, Hq. simpl. f_equal.
Qed.

Lemma pretty_Z_nonempty (z : Z) : pretty z <> "".
Proof.
  intros Hz. pose proof (parseInt_pretty_Z z) as H. rewrite Hz in H.
  discriminate.
Qed.

Lemma String_safe_integer z :
  Z.abs z < 2 ^ 53 -> String_ (JNumber (Int z)) = pretty z.
Proof.
  intros H. unfold String_, NumberToString.
  assert (Hlt : 2 ^ 53 < 10 ^ 21) by (vm_compute; reflexivity).
  rewrite (proj2 (Z.ltb_lt (Z.abs z) (10 ^ 21))); [done | lia].
Qed.

(** X1.  A safe integer, below 2^53 in absolute value, that [String] turns
    into text is read back by [parseInt] as the same number, and its text
    is never the empty string, so that the fallback of [value || fallback]
    is not taken for it.  This does not extend to every number: the text of
    10^21 is in exponent notation and [parseInt] reads 1 from it. *)
Theorem parseInt_String_number z fallback :
  Z.abs z < 2 ^ 53 ->
  parseInt (String_ (JNumber (Int z))) = Int z /\
  parseInt (or_else (Some (String_ (JNumber (Int z)))) fallback) = Int z /\
  String_ (JNumber (Int (10 ^ 21))) = "1e+21" /\
  parseInt (String_ (JNumber (Int (10 ^ 21)))) = Int 1.
Proof.
  intros H. rewrite String_safe_integer by done. simpl.
  rewrite decide_False by apply pretty_Z_nonempty.
  split_and!; [apply parseInt_pretty_Z | apply parseInt_pretty_Z | |];
    vm_compute; reflexivity.
Qed.

(** ** Seeding the defaults *)

Lemma insert_if_absent_lookup k v c k' :
  insert_if_absent k v c !! k' =
  match c !! k' with
  | Some v' => Some v'
  | None => if decide (k = k') then Some v else None
  end.
Proof.
  unfold insert_if_absent. destruct (c !! k) as [w|] eqn:E.
  - destruct (c !! k') eqn:E'; [done|]. case_decide; [congruence|done].
  - rewrite lookup_insert. case_decide as Hk.
    + subst. by rewrite E.
    + by destruct (c !! k').
Qed.

Lemma seed_keeps l : forall (c : gmap string string) k v,
  c !! k = Some v ->
  fold_left (fun c kv => insert_if_absent kv.1 kv.2 c) l c !! k = Some v.
Proof.
  induction l as [|[k' d'] l IH]; intros c k v H; simpl; [done|].
  apply IH. by rewrite insert_if_absent_lookup, H.
Qed.

Lemma seed_other l : forall (c : gmap string string) k,
  k ∉ l.*1 ->
  fold_left (fun c kv => insert_if_absent kv.1 kv.2 c) l c !! k = c !! k.
Proof.
  induction l as [|[k' d'] l IH]; intros c k H; simpl; [done|].
  simpl in H. apply not_elem_of_cons in H as [Hne H].
  rewrite IH by done. rewrite insert_if_absent_lookup.
  destruct (c !! k); [done|]. by rewrite decide_False.
Qed.

Lemma seed_adds l : forall (c : gmap string string) k d,
  NoDup l.*1 -> (k, d) ∈ l -> c !! k = None ->
  fold_left (fun c kv => insert_if_absent kv.1 kv.2 c) l c !! k = Some d.
Proof.
  induction l as [|[k' d'] l IH]; intros c k d Hnd Hin Hc; simpl.
  { by apply elem_of_nil in Hin. }
  simpl in Hnd. apply NoDup_cons in Hnd as [Hk' Hnd].
  apply elem_of_cons in Hin as [[= -> ->]|Hin].
  - apply seed_keeps. rewrite insert_if_absent_lookup, Hc.
    by rewrite decide_True.
  - apply IH; [done..|]. rewrite insert_if_absent_lookup, Hc.
    rewrite decide_False; [done|]. intros ->. apply Hk'.
    apply list_elem_of_fmap. by exists (k, d).
Qed.

Lemma seed_nothing_to_do l : forall (c : gmap string string),
  (forall k, k ∈ l.*1 -> is_Some (c !! k)) ->
  fold_left (fun c kv => insert_if_absent kv.1 kv.2 c) l c = c.
Proof.
  induction l as [|[k' d'] l IH]; intros c H; simpl; [done|].
  assert (E : insert_if_absent k' d' c = c).
  { unfold insert_if_absent. destruct (H k') as [v ->]; [|done].
    simpl. left. }
  rewrite E. apply IH. intros k Hk. apply H. simpl. by right.
Qed.

Lemma defaults_NoDup : NoDup defaults.*1.
Proof. apply (bool_decide_unpack _). by vm_compute. Qed.

Lemma initDB_config s :
  config (initDB s) =
  fold_left (fun c kv => insert_if_absent kv.1 kv.2 c) defaults (config s).
Proof. reflexivity. Qed.

(** X2.  [initDB] touches neither the ledger nor the streaks, never
    replaces a value that is stored, gives every default key that is
    missing its default value, and leaves every other key alone. *)
Theorem initDB_seeds_without_clobbering s :
  drops (initDB s) = drops s /\
  streaks (initDB s) = streaks s /\
  (forall k v, config s !! k = Some v -> config (initDB s) !! k = Some v) /\
  (forall k d, (k, d) ∈ defaults -> config s !! k = None ->
               config (initDB s) !! k = Some d) /\
  (forall k, k ∉ defaults.*1 -> config (initDB s) !! k = config s !! k).
Proof.
  split_and!; try done; rewrite initDB_config.
  - intros k v. apply seed_keeps.
  - intros k d. apply seed_adds, defaults_NoDup.
  - intros k. apply seed_other.
Qed.

(** X3.  Running [initDB] a second time changes nothing: a restart of the
    process leaves the store as the first start made it. *)
Theorem initDB_idempotent s : initDB (initDB s) = initDB s.
Proof.
  unfold initDB at 1. change (drops (initDB s)) with (drops s).
  change (streaks (initDB s)) with (streaks s). rewrite initDB_config.
  unfold initDB. f_equal. apply seed_nothing_to_do. intros k Hk.
  apply list_elem_of_fmap in Hk as [[k' d] [-> Hin]].
  change ((k', d).1) with k'.
  destruct (config s !! k') as [v|] eqn:E.
  - exists v. by apply seed_keeps.
  - exists d. by apply seed_adds; [apply defaults_NoDup|..].
Qed.

(** ** Writing the config *)

Lemma all_written_other u : forall (c : gmap string string) k,
  k ∉ u.*1 -> all_written u c !! k = c !! k.
Proof.
  induction u as [|[k' v'] u IH]; intros c k H; simpl; [done|].
  simpl in H. apply not_elem_of_cons in H as [Hne H].
  unfold all_written in *. simpl. rewrite IH by done.
  by rewrite lookup_insert_ne.
Qed.

Lemma all_written_among u : forall (c c' : gmap string string) k,
  k ∈ u.*1 -> all_written u c !! k = all_written u c' !! k.
Proof.
  induction u as [|[k' v'] u IH]; intros c c' k H; simpl in H.
  { by apply elem_of_nil in H. }
  unfold all_written in *. simpl.
  destruct (decide (k ∈ u.*1)) as [Hin|Hout].
  - by apply IH.
  - apply elem_of_cons in H as [->|H]; [|done].
    pose proof (all_written_other u) as Ho. unfold all_written in Ho.
    rewrite !Ho by done. by rewrite !lookup_insert_eq.
Qed.

Lemma all_written_pair u : forall (c : gmap string string) k v,
  NoDup u.*1 -> (k, v) ∈ u -> all_written u c !! k = Some (String_ v).
Proof.
  induction u as [|[k' v'] u IH]; intros c k v Hnd Hin.
  { by apply elem_of_nil in Hin. }
  simpl in Hnd. apply NoDup_cons in Hnd as [Hk' Hnd].
  unfold all_written in *. simpl.
  apply elem_of_cons in Hin as [[= -> ->]|Hin].
  - pose proof (all_written_other u) as Ho. unfold all_written in Ho.
    rewrite Ho by done. by rewrite lookup_insert_eq.
  - by apply IH.
Qed.

Lemma all_written_twice u (c : gmap string string) :
  all_written u (all_written u c) = all_written u c.
Proof.
  apply map_eq. intros k. destruct (decide (k ∈ u.*1)) as [Hin|Hout].
  - by apply all_written_among.
  - by rewrite !all_written_other.
Qed.

(** X4.  An authorised upsert that the store does not refuse writes every
    pair of a body with distinct keys as the text of its value and leaves
    all other keys, the ledger and the streaks as they were; this holds in
    both files. *)
Theorem config_upsert_writes_every_pair req updates s :
  x_admin_key req = Some ADMIN_KEY ->
  NoDup updates.*1 ->
  let out := put_api_admin_config req (fun _ => false) updates s in
  out.1 = Success /\
  put_api_admin_config_sqlite req (fun _ => false) updates s = out /\
  drops out.2 = drops s /\
  streaks out.2 = streaks s /\
  (forall k v, (k, v) ∈ updates -> get_config out.2 !! k = Some (String_ v)) /\
  (forall k, k ∉ updates.*1 -> get_config out.2 !! k = get_config s !! k).
Proof.
  intros Hk Hnd. cbv zeta.
  rewrite (put_api_admin_config_all req updates s Hk).
  unfold put_api_admin_config_sqlite, requireAdmin, transaction.
  rewrite decide_True by done. rewrite upsert_entries_no_failure. simpl.
  split_and!; try done.
  - intros k v. by apply all_written_pair.
  - intros k. by apply all_written_other.
Qed.

(** X5.  The upsert is idempotent: sending the same body a second time,
    with no statement refused, leaves the store as the first time left it. *)
Theorem config_upsert_idempotent req updates s :
  x_admin_key req = Some ADMIN_KEY ->
  let once := put_api_admin_config req (fun _ => false) updates s in
  put_api_admin_config req (fun _ => false) updates once.2 = once.
Proof.
  intros Hk. cbv zeta. rewrite !put_api_admin_config_all by done. simpl.
  by rewrite all_written_twice.
Qed.

Lemma upsert_entries_first_refused fails u : forall i (c : gmap string string),
  upsert_entries fails i u c =
  match first_refused fails i (length u) with
  | None => (true, all_written u c)
  | Some k => (false, all_written (take (k - i) u) c)
  end /\
  (forall k, first_refused fails i (length u) = Some k ->
     (i <= k < i + length u)%nat /\ fails k = true /\
     forall j, (i <= j < k)%nat -> fails j = false).
Proof.
  induction u as [|[key v] u IH]; intros i c; simpl.
  { split; [done|]. intros k [=]. }
  destruct (fails i) eqn:Hi.
  - rewrite Nat.sub_diag. split; [done|]. intros k [= <-].
    split_and!; [lia | lia | done | lia].
  - destruct (IH (S i) (<[key := String_ v]> c)) as [E Hk]. rewrite E.
    split.
    + destruct (first_refused fails (S i) (length u)) as [k|] eqn:Ek; [|done].
      destruct (Hk k eq_refl) as ([Hle _] & _).
      replace (k - i)%nat with (S (k - S i)) by lia. done.
    + intros k Ek. destruct (Hk k Ek) as ([Hle Hlt] & Hf & Hbefore).
      split_and!; [lia | lia | done |].
      intros j Hj. destruct (decide (j = i)) as [->|Hne]; [done|].
      apply Hbefore. lia.
Qed.

(** X6.  In [server.js] an authorised upsert stops at the first statement
    the store refuses: the pairs before it are written, in order, and none
    after it; with no refusal every pair is written and the answer is
    Success. *)
Theorem put_api_admin_config_prefix req fails updates s :
  x_admin_key req = Some ADMIN_KEY ->
  match first_refused fails 0 (length updates) with
  | None =>
      put_api_admin_config req fails updates s =
        (Success,
         mkStore (drops s) (streaks s) (all_written updates (config s)))
  | Some k =>
      put_api_admin_config req fails updates s =
        (DatabaseError,
         mkStore (drops s) (streaks s)
           (all_written (take k updates) (config s))) /\
      (k < length updates)%nat /\ fails k = true /\
      forall j, (j < k)%nat -> fails j = false
  end.
Proof.
  intros Hk. unfold put_api_admin_config, requireAdmin.
  rewrite decide_True by done.
  destruct (upsert_entries_first_refused fails updates 0 (config s)) as [E H].
  rewrite E. destruct (first_refused fails 0 (length updates)) as [k|]; [|done].
  destruct (H k eq_refl) as (Hr & Hf & Hb). rewrite Nat.sub_0_r.
  split_and!; [done | lia | done |]. intros j Hj. apply Hb. lia.
Qed.

(** X7.  A limit written through the config upsert as a safe integer, below
    2^53 in absolute value, is the limit the admission path reads: after an
    authorised upsert, with distinct keys and no statement refused, that
    carries [drops_per_day] or [max_chars] as such a number, the value
    [parseInt] gives the handler for that key is that number. *)
Theorem upserted_limits_are_read_back req updates s :
  x_admin_key req = Some ADMIN_KEY ->
  NoDup updates.*1 ->
  let out := put_api_admin_config req (fun _ => false) updates s in
  (forall n, ("drops_per_day", JNumber (Int n)) ∈ updates ->
             Z.abs n < 2 ^ 53 ->
             parseInt (or_else (config out.2 !! "drops_per_day") "1") = Int n) /\
  (forall m, ("max_chars", JNumber (Int m)) ∈ updates ->
             Z.abs m < 2 ^ 53 ->
             parseInt (or_else (config out.2 !! "max_chars") "200") = Int m).
Proof.
  intros Hk Hnd. cbv zeta. rewrite put_api_admin_config_all by done.
  cbn [snd config].
  split; intros z Hin Hz;
    rewrite (all_written_pair _ _ _ _ Hnd Hin), String_safe_integer by done;
    simpl; rewrite decide_False by apply pretty_Z_nonempty;
    apply parseInt_pretty_Z.
Qed.

(** ** What the admin key guards *)

(** X8.  Without the admin key of the process, whether the header is
    missing or wrong, each of the five admin operations answers
    Unauthorized and writes nothing. *)
Theorem unauthorized_changes_nothing o req s :
  admin_request o = Some req ->
  x_admin_key req <> Some ADMIN_KEY ->
  run o s = (Unauthorized, s).
Proof.
  intros Ho Hk.
  destruct o; simpl in Ho; try discriminate; injection Ho as ->; simpl;
    unfold post_api_admin_drop, put_api_admin_config,
      put_api_admin_config_sqlite, post_api_admin_reset_streaks,
      post_api_admin_reset_counter, requireAdmin;
    by rewrite decide_False.
Qed.

(** ** Status, count and drop *)

Lemma count_on_day_snoc day l row :
  count_on_day day (l ++ [row]) =
  count_on_day day l + (if on_day day row then 1 else 0).
Proof.
  unfold count_on_day. rewrite filter_app, length_app, Nat2Z.inj_add.
  f_equal. destruct (on_day day row) eqn:E.
  - by rewrite filter_cons_True.
  - rewrite filter_cons_False; [done|]. by rewrite E.
Qed.

Lemma post_api_drop_refused_iff req body clk s :
  (post_api_drop req body clk s).1 = AlreadyDroppedToday <->
  cap_reached req clk s.
Proof.
  destruct (post_api_drop_inv req body clk s)
    as [[Hc E]|[(Hc & _ & E)|[(Hc & _ & _ & E)|(Hc & _ & _ & E)]]];
    rewrite E; simpl; split; try done; intros; by exfalso.
Qed.

(** X9.  [hasDroppedToday] of [GET /api/status] is true exactly when a
    [POST /api/drop] of the same client on the same day would be answered
    AlreadyDroppedToday, whatever its body. *)
Theorem status_agrees_with_drop req body clk now s :
  isoDate now = today_of clk ->
  status_hasDroppedToday (get_api_status req now s) = true <->
  (post_api_drop req body clk s).1 = AlreadyDroppedToday.
Proof.
  intros Hday. rewrite post_api_drop_refused_iff, cap_reached_iff.
  unfold get_api_status. simpl. by rewrite Hday.
Qed.

(** X10.  The count an accepted drop returns, and the device's own count
    for the day, exceed the previous ones by one exactly when the store
    stamps the new row with the day the server calls today; when the two
    clocks disagree on the day the row is counted for neither. *)
Theorem accepted_drop_counts req body clk s n :
  (post_api_drop req body clk s).1 = DropOk n ->
  let today := today_of clk in
  let d := getDeviceHash req in
  let stamped_today :=
    if bool_decide (isoDate (now_insert clk) = today) then 1 else 0 in
  n = count_on_day today (drops s) + stamped_today /\
  count_device_on_day d today (drops (post_api_drop req body clk s).2) =
    count_device_on_day d today (drops s) + stamped_today.
Proof.
  intros Hok. cbv zeta. pose proof (post_api_drop_ok_inv _ _ _ _ _ Hok) as E.
  rewrite E in Hok |- *. simpl in Hok |- *. injection Hok as <-.
  rewrite count_on_day_snoc, count_device_on_day_snoc.
  unfold on_day, drop_of. simpl.
  rewrite (bool_decide_eq_true_2 (getDeviceHash req = getDeviceHash req)) by done.
  done.
Qed.

(** X11.  Right after an accepted drop, on the same day, [GET /api/count]
    and the [todayCount] of [GET /api/status] are the count the drop
    returned, and the status shows the streak row the drop has just
    written. *)
Theorem status_after_accepted_drop req body clk now s n :
  (post_api_drop req body clk s).1 = DropOk n ->
  isoDate now = today_of clk ->
  let s' := (post_api_drop req body clk s).2 in
  let st := get_api_status req now s' in
  get_api_count now s' = n /\
  status_todayCount st = n /\
  exists row,
    streaks s' !! getDeviceHash req = Some row /\
    last_drop_date row = Some (today_of clk) /\
    status_streak st = current_streak row /\
    status_longestStreak st = longest_streak row /\
    status_streak st <= status_longestStreak st.
Proof.
  intros Hok Hday. cbv zeta. pose proof (post_api_drop_ok_inv _ _ _ _ _ Hok) as E.
  rewrite E in Hok |- *. simpl in Hok |- *. injection Hok as <-.
  unfold get_api_count, get_api_status. simpl. rewrite Hday, lookup_insert_eq.
  split_and!; [done..|].
  eexists. split; [reflexivity|].
  assert (Hz : forall x, or_zero x = x).
  { intros x. unfold or_zero. by case_decide. }
  rewrite !Hz.
  destruct (streaks s !! getDeviceHash req) as [old|]; simpl;
    split_and!; try done; lia.
Qed.

(** X12.  A drop, whatever its outcome, leaves the config and the streak
    rows of all other devices as they were, and keeps every row of the
    ledger in place. *)
Theorem drop_leaves_the_rest req body clk s :
  let s' := (post_api_drop req body clk s).2 in
  (forall d, d <> getDeviceHash req -> streaks s' !! d = streaks s !! d) /\
  config s' = config s /\
  drops s `prefix_of` drops s'.
Proof.
  cbv zeta.
  destruct (post_api_drop_inv req body clk s)
    as [[_ E]|[(_ & _ & E)|[(_ & _ & _ & E)|(_ & _ & _ & E)]]];
    rewrite E; simpl; split_and!; try done.
  - intros d Hd. by rewrite lookup_insert_ne.
  - by apply prefix_app_r.
Qed.

(** X13.  A mode that is present in the body but is not a string (null, a
    boolean, a number) is not replaced by the default: below the cap the
    request is answered InvalidMode and nothing is written. *)
Theorem non_string_mode_is_invalid req body clk s v :
  body_mode body = Some v ->
  (forall m, v <> JStr m) ->
  ~ cap_reached req clk s ->
  post_api_drop req body clk s = (InvalidMode, s).
Proof.
  intros Hm Hv Hc. apply post_api_drop_invalid; [done|].
  unfold mode_of. rewrite Hm. simpl. intros [H|[H|H]]; by eapply Hv.
Qed.

(** ** The first drop on a fresh database *)

Lemma seeded_limits :
  maxDrops (config (initDB empty_store)) = Int 1 /\
  maxChars (config (initDB empty_store)) = Int 200.
Proof. split; vm_compute; reflexivity. Qed.

Lemma seeded_flags v :
  valid_mode v -> ~ flag_off (initDB empty_store) v.
Proof.
  intros [-> | [-> | ->]] (m & [= <-] & H); vm_compute in H; discriminate.
Qed.

Lemma first_drop_of_a_device req body clk s :
  maxDrops (config s) = Int 1 ->
  count_device_on_day (getDeviceHash req) (today_of clk) (drops s) = 0 ->
  streaks s !! getDeviceHash req = None ->
  valid_mode (mode_of body) ->
  ~ flag_off s (mode_of body) ->
  let out := post_api_drop req body clk s in
  accepted out.1 = true /\
  streaks out.2 !! getDeviceHash req =
    Some (mkStreak 1 1 (Some (today_of clk))) /\
  (isoDate (now_insert clk) = today_of clk ->
   forall body' clk', today_of clk' = today_of clk ->
     (post_api_drop req body' clk' out.2).1 = AlreadyDroppedToday).
Proof.
  intros HN H0 Hnone Hv Hf. cbv zeta.
  assert (Hc : ~ cap_reached req clk s).
  { intros (N & HN' & Hle). rewrite HN in HN'. injection HN' as <-. lia. }
  rewrite (post_api_drop_accepted req body clk s Hc Hv Hf).
  cbn [fst snd accepted streaks drops config]. split; [done|]. split.
  { by rewrite lookup_insert_eq, Hnone. }
  intros Hi body' clk' Hday. apply post_api_drop_refused_iff.
  exists 1. cbn [config drops]. split; [done|].
  rewrite Hday, count_device_on_day_snoc, H0.
  unfold on_day, drop_of. cbn [device_hash created_at].
  by rewrite Hi, !bool_decide_eq_true_2.
Qed.

(** ** The device identity *)

Lemma or_else_empty x : or_else (Some x) "" = x.
Proof. unfold or_else. by case_decide. Qed.

Lemma append_assoc (a b c : string) : (a +:+ b) +:+ c = a +:+ (b +:+ c).
Proof.
  induction a as [|x a IH]; [done|].
  change (String x ((a +:+ b) +:+ c) = String x (a +:+ (b +:+ c))).
  by rewrite IH.
Qed.

(** X15.  The identity of a client is the digest of its address and its
    user agent put together without a separator: two clients whose address
    and user agent differ but give the same text when joined are one
    device, and after the drop of one of them, under a limit of one drop a
    day, the other is answered AlreadyDroppedToday. *)
Theorem joined_identity_is_shared a b c key1 key2 :
  let one := mkReq (Some (a +:+ b)) (Some c) key1 in
  let other := mkReq (Some a) (Some (b +:+ c)) key2 in
  getDeviceHash one = getDeviceHash other /\
  forall body clk body' clk' s n,
    maxDrops (config s) = Int 1 ->
    (post_api_drop one body clk s).1 = DropOk n ->
    isoDate (now_insert clk) = today_of clk ->
    today_of clk' = today_of clk ->
    (post_api_drop other body' clk' (post_api_drop one body clk s).2).1 =
      AlreadyDroppedToday.
Proof.
  cbv zeta.
  assert (Hid : getDeviceHash (mkReq (Some (a +:+ b)) (Some c) key1) =
                getDeviceHash (mkReq (Some a) (Some (b +:+ c)) key2)).
  { unfold getDeviceHash. cbn [ip user_agent]. rewrite !or_else_empty.
    f_equal. apply append_assoc. }
  split; [done|].
  intros body clk body' clk' s n HN Hok Hi Hday.
  apply post_api_drop_refused_iff. exists 1.
  rewrite post_api_drop_config. split; [done|].
  rewrite (post_api_drop_ok_inv _ _ _ _ _ Hok). cbn [snd drops].
  rewrite <- Hid, Hday, count_device_on_day_snoc.
  unfold on_day, drop_of. cbn [device_hash created_at].
  rewrite Hi, !bool_decide_eq_true_2 by done.
  simpl. unfold count_device_on_day. lia.
Qed.

(** ** The ledger *)

(** What an operation does to the ledger. *)
Lemma run_drops o s :
  drops (run o s).2 = drops s \/
  (exists row, drops (run o s).2 = (drops s ++ [row])%list /\
     (device_hash row = "admin" /\ streaks (run o s).2 = streaks s \/
      is_Some (streaks (run o s).2 !! device_hash row))) \/
  (exists day, is_reset_counter o = true /\
     drops (run o s).2 = filter (fun r => on_day day r = false) (drops s)).
Proof.
  destruct o as [|req body clk|req body t|req fails updates
                 |req fails updates|req|req now]; simpl.
  - by left.
  - destruct (post_api_drop_inv req body clk s)
      as [[_ E]|[(_ & _ & E)|[(_ & _ & _ & E)|(_ & _ & _ & E)]]];
      rewrite E; simpl; [by left..|].
    right; left. eexists. split; [reflexivity|]. right.
    unfold drop_of. simpl. by rewrite lookup_insert_eq.
  - unfold post_api_admin_drop, requireAdmin. case_decide; simpl; [|by left].
    right; left. eexists. split; [reflexivity|]. by left.
  - unfold put_api_admin_config, requireAdmin. case_decide; [|by left].
    destruct (upsert_entries fails 0 updates (config s)). by left.
  - unfold put_api_admin_config_sqlite, requireAdmin. case_decide; [|by left].
    destruct (transaction (upsert_entries fails 0 updates) (config s)). by left.
  - unfold post_api_admin_reset_streaks, requireAdmin. case_decide; by left.
  - unfold post_api_admin_reset_counter, requireAdmin.
    case_decide; simpl; [|by left]. right; right. by eexists.
Qed.

(** X16.  The ledger only grows: every operation other than the reset of
    the counter keeps all rows of the ledger, in their order, and adds at
    most one row at the end. *)
Theorem ledger_is_append_only o s :
  is_reset_counter o = false ->
  drops (run o s).2 = drops s \/
  exists row, drops (run o s).2 = (drops s ++ [row])%list.
Proof.
  intros Ho. destruct (run_drops o s) as [E|[(row & E & _)|(day & Hr & _)]].
  - by left.
  - right. by exists row.
  - congruence.
Qed.

Lemma count_on_day_filter_other today day l :
  day <> today ->
  count_on_day day (filter (fun r => on_day today r = false) l) =
  count_on_day day l.
Proof.
  intros Hne. unfold count_on_day. f_equal. f_equal.
  induction l as [|r l IH]; [done|].
  destruct (on_day today r) eqn:Et.
  - rewrite (filter_cons_False (fun r => on_day today r = false)) by (by rewrite Et).
    rewrite IH. rewrite filter_cons_False; [done|].
    unfold on_day in *. apply bool_decide_eq_true in Et.
    rewrite bool_decide_eq_false_2; [done|]. congruence.
  - rewrite (filter_cons_True (fun r => on_day today r = false)) by done.
    destruct (on_day day r) eqn:Ed.
    + rewrite !filter_cons_True by done. simpl. by rewrite IH.
    + rewrite !filter_cons_False by (by rewrite Ed). done.
Qed.

Lemma count_on_day_filter_same today l :
  filter (fun r => on_day today r = true)
    (filter (fun r => on_day today r = false) l) = [].
Proof.
  induction l as [|r l IH]; [done|].
  destruct (on_day today r) eqn:Et.
  - by rewrite (filter_cons_False (fun r => on_day today r = false))
      by (by rewrite Et).
  - rewrite (filter_cons_True (fun r => on_day today r = false)) by done.
    rewrite filter_cons_False; [done|]. by rewrite Et.
Qed.

Lemma count_device_le_count d day l :
  0 <= count_device_on_day d day l <= count_on_day day l.
Proof.
  unfold count_device_on_day, count_on_day. split; [lia|].
  apply inj_le. induction l as [|r l IH]; [done|].
  destruct (on_day day r) eqn:E.
  - rewrite (filter_cons_True (fun r => on_day day r = true)) by done.
    destruct (bool_decide (device_hash r = d)) eqn:Ed.
    + rewrite filter_cons_True by (by rewrite Ed, E). simpl. lia.
    + rewrite filter_cons_False by (by rewrite Ed). simpl. lia.
  - rewrite (filter_cons_False (fun r => on_day day r = true)) by (by rewrite E).
    rewrite filter_cons_False; [done|]. rewrite E. by rewrite andb_false_r.
Qed.

(** After an authorised reset no device has a drop of today, and streaks
    and config are as before. *)
Lemma reset_counter_device_counts req now s :
  x_admin_key req = Some ADMIN_KEY ->
  let s1 := (post_api_admin_reset_counter req now s).2 in
  (forall d, count_device_on_day d (isoDate now) (drops s1) = 0) /\
  streaks s1 = streaks s /\
  config s1 = config s.
Proof.
  intros Hk. cbv zeta. unfold post_api_admin_reset_counter, requireAdmin.
  rewrite decide_True by done. simpl. split; [|done].
  intros d. pose proof (count_device_le_count d (isoDate now)
    (filter (fun r => on_day (isoDate now) r = false) (drops s))) as H.
  unfold count_on_day in H. rewrite count_on_day_filter_same in H.
  simpl in H. lia.
Qed.

(** X17.  An authorised reset of the counter brings the count of today,
    for the whole service and for each device, to 0, leaves the counts of
    every other day as they were, and touches neither streaks nor config. *)
Theorem reset_counter_clears_today_only req now s :
  x_admin_key req = Some ADMIN_KEY ->
  let out := post_api_admin_reset_counter req now s in
  out.1 = Success /\
  get_api_count now out.2 = 0 /\
  (forall d, count_device_on_day d (isoDate now) (drops out.2) = 0) /\
  (forall day, day <> isoDate now ->
     count_on_day day (drops out.2) = count_on_day day (drops s)) /\
  streaks out.2 = streaks s /\
  config out.2 = config s.
Proof.
  intros Hk. cbv zeta. unfold post_api_admin_reset_counter, requireAdmin.
  rewrite decide_True by done. simpl.
  assert (H0 : count_on_day (isoDate now)
                 (filter (fun r => on_day (isoDate now) r = false) (drops s)) = 0).
  { unfold count_on_day. by rewrite count_on_day_filter_same. }
  split_and!; try done.
  - intros d. pose proof (count_device_le_count d (isoDate now)
      (filter (fun r => on_day (isoDate now) r = false) (drops s))). lia.
  - intros day Hne. by apply count_on_day_filter_other.
Qed.

(** ** Streaks *)

Lemma isoDate_day_before t : isoDate (t - ms_per_day) = isoDate t - 1.
Proof.
  unfold isoDate, ms_per_day.
  replace (t - 86400000) with (t + (-1) * 86400000) by lia.
  rewrite Z.div_add by lia. lia.
Qed.

(** X20.  The [yesterday] of a drop is the day before its [today] exactly
    when the reading of the clock at the streak update falls on the same
    day as the one on entry. *)
Theorem yesterday_of_same_day clk :
  yesterday_of clk = today_of clk - 1 <->
  isoDate (now_streak clk) = isoDate (now_entry clk).
Proof.
  unfold yesterday_of, today_of. rewrite isoDate_day_before. lia.
Qed.

Lemma streak_after_dated old today yesterday :
  (forall r, old = Some r -> 1 <= longest_streak r) ->
  1 <= longest_streak (streak_after old today yesterday) /\
  last_drop_date (streak_after old today yesterday) = Some today.
Proof.
  intros H. destruct old as [r|]; simpl; [|split; [lia|done]].
  specialize (H r eq_refl). split; [lia|done].
Qed.

Lemma run_rows_dated o s : rows_dated s -> rows_dated (run o s).2.
Proof.
  intros Hok d r. destruct (run_streaks o s) as [E|[(d' & t & y & E)|E]];
    rewrite E.
  - apply Hok.
  - destruct (decide (d' = d)) as [->|Hne].
    + rewrite lookup_insert_eq. intros [= <-].
      destruct (streak_after_dated (streaks s !! d) t y) as [H1 H2].
      { intros r Hr. by destruct (Hok d r Hr). }
      rewrite H2. split; [done|by eexists].
    + rewrite lookup_insert_ne by done. apply Hok.
  - rewrite lookup_fmap. destruct (streaks s !! d) as [old|] eqn:Hold;
      simpl; [|done].
    intros [= <-]. simpl. by apply (Hok d old).
Qed.

Lemma reachable_rows_dated s : reachable s -> rows_dated s.
Proof.
  induction 1 as [|o s _ IH].
  - intros d r. simpl. by rewrite lookup_empty.
  - by apply run_rows_dated.
Qed.

Lemma run_no_orphan_drop o s : no_orphan_drop s -> no_orphan_drop (run o s).2.
Proof.
  intros Hok row Hin.
  assert (Hkeep : forall d, is_Some (streaks s !! d) ->
                            is_Some (streaks (run o s).2 !! d)).
  { intros d [r Hr]. destruct (run_streaks o s) as [E|[(d' & t & y & E)|E]];
      rewrite E.
    - by exists r.
    - destruct (decide (d' = d)) as [->|Hne].
      + rewrite lookup_insert_eq. by eexists.
      + rewrite lookup_insert_ne by done. by exists r.
    - rewrite lookup_fmap, Hr. by eexists. }
  assert (Hold : forall row, row ∈ drops s ->
            device_hash row = "admin" \/
            is_Some (streaks (run o s).2 !! device_hash row)).
  { intros row' Hin'. destruct (Hok row' Hin') as [H|H]; [by left|].
    right. by apply Hkeep. }
  destruct (run_drops o s) as [E|[(new & E & Hnew)|(day & _ & E)]];
    rewrite E in Hin.
  - by apply Hold.
  - apply elem_of_app in Hin as [Hin|Hin]; [by apply Hold|].
    apply list_elem_of_singleton in Hin as ->.
    destruct Hnew as [[Ha _]|Hn]; [by left|by right].
  - apply list_elem_of_filter in Hin as [_ Hin]. by apply Hold.
Qed.

(** X21.  In every reachable state each streak row has a longest streak
    of at least 1 and a last drop date, and each row of the ledger belongs
    to the admin identity or to a device that has a streak row: no date is
    ever missing and no accepted drop is left without its streak. *)
Theorem reachable_store_is_well_formed s :
  reachable s -> rows_dated s /\ no_orphan_drop s.
Proof.
  intros Hr. split; [by apply reachable_rows_dated|].
  induction Hr as [|o s _ IH].
  - intros row Hin. simpl in Hin. by apply elem_of_nil in Hin.
  - by apply run_no_orphan_drop.
Qed.

(** X22.  After an authorised reset of the streaks every row has a current
    streak of 0 with its longest streak and its date kept.  The next
    accepted drop of a device, with [yesterday] the day before today, then
    leaves the current streak at 0 when the device had already dropped
    today and sets it to 1 otherwise, and the longest streak stays what it
    was before the reset. *)
Theorem reset_streaks_then_drop admin req body clk s old n :
  reachable s ->
  x_admin_key admin = Some ADMIN_KEY ->
  streaks s !! getDeviceHash req = Some old ->
  let s1 := (post_api_admin_reset_streaks admin s).2 in
  let out := post_api_drop req body clk s1 in
  streaks s1 !! getDeviceHash req =
    Some (mkStreak 0 (longest_streak old) (last_drop_date old)) /\
  (out.1 = DropOk n ->
   yesterday_of clk = today_of clk - 1 ->
   streaks out.2 !! getDeviceHash req =
     Some (mkStreak
             (if decide (last_drop_date old = Some (today_of clk)) then 0 else 1)
             (longest_streak old)
             (Some (today_of clk)))).
Proof.
  intros Hr Hk Hold. cbv zeta.
  destruct (reachable_rows_dated s Hr _ _ Hold) as [Hl _].
  assert (E1 : streaks (post_api_admin_reset_streaks admin s).2 !!
               getDeviceHash req =
               Some (mkStreak 0 (longest_streak old) (last_drop_date old))).
  { unfold post_api_admin_reset_streaks, requireAdmin.
    rewrite decide_True by done. simpl. by rewrite lookup_fmap, Hold. }
  split; [done|]. intros Hok Hy.
  rewrite (post_api_drop_ok_inv _ _ _ _ _ Hok). simpl.
  rewrite lookup_insert_eq, E1. simpl. unfold newStreak. simpl. rewrite Hy.
  f_equal. repeat case_decide; f_equal; try lia.
  all: match goal with
       | H1 : last_drop_date ?o = Some ?a, H2 : last_drop_date ?o = Some ?b |- _ =>
           rewrite H1 in H2; injection H2; lia
       end.
Qed.

Lemma on_consecutive_days_cons d first call calls :
  on_consecutive_days d first (call :: calls) ->
  (getDeviceHash call.1.1 = d /\ today_of call.2 = first /\
   yesterday_of call.2 = first - 1) /\
  on_consecutive_days d (first + 1) calls.
Proof.
  intros H. split.
  - destruct (H O call eq_refl) as (H1 & H2 & H3). simpl in H2, H3.
    split_and!; [done | lia | lia].
  - intros i c Hi. destruct (H (S i) c Hi) as (H1 & H2 & H3).
    split_and!; [done | lia | lia].
Qed.

Lemma serve_consecutive_from_row d calls : forall first s c l,
  on_consecutive_days d first calls ->
  streaks s !! d = Some (mkStreak c l (Some (first - 1))) ->
  c <= l ->
  Forall (fun r => accepted r = true) (serve calls s).1 ->
  let n := Z.of_nat (length calls) in
  streaks (serve calls s).2 !! d =
    Some (mkStreak (c + n) (Z.max l (c + n)) (Some (first + n - 1))).
Proof.
  induction calls as [|[[req body] clk] calls IH];
    intros first s c l Hdays Hrow Hcl Hall; cbv zeta.
  { simpl. rewrite Hrow. same_streak_row. }
  apply on_consecutive_days_cons in Hdays as [(Hd & Ht & Hy) Hdays].
  simpl in Hd, Ht, Hy. simpl in Hall |- *.
  destruct (post_api_drop req body clk s) as [r s1] eqn:E.
  destruct (serve calls s1) as [rs s2] eqn:E2. simpl in Hall |- *.
  apply Forall_cons in Hall as [Hacc Hall].
  destruct r; try discriminate.
  assert (Hok : (post_api_drop req body clk s).1 = DropOk todayCount)
    by (by rewrite E).
  pose proof (post_api_drop_ok_inv _ _ _ _ _ Hok) as E'.
  rewrite E in E'. injection E' as _ Hs1.
  assert (Hrow1 : streaks s1 !! d =
            Some (mkStreak (c + 1) (Z.max (c + 1) l) (Some (first + 1 - 1)))).
  { rewrite Hs1. simpl. rewrite Hd, lookup_insert_eq, Hrow. simpl.
    unfold newStreak. simpl. rewrite Hy, Ht.
    rewrite decide_True by done. same_streak_row. }
  assert (Hle : c + 1 <= Z.max (c + 1) l) by lia.
  specialize (IH (first + 1) s1 (c + 1) (Z.max (c + 1) l) Hdays Hrow1 Hle).
  rewrite E2 in IH. simpl in IH. rewrite (IH Hall). same_streak_row.
Qed.

(** X23.  Accepted drops of one device on consecutive days, each with
    [yesterday] the day before its today, starting with no streak row: after
    the n-th the row is (n, n, the day of the n-th). *)
Theorem consecutive_days_build_the_streak d first calls s :
  on_consecutive_days d first calls ->
  streaks s !! d = None ->
  Forall (fun r => accepted r = true) (serve calls s).1 ->
  calls <> [] ->
  let n := Z.of_nat (length calls) in
  streaks (serve calls s).2 !! d = Some (mkStreak n n (Some (first + n - 1))).
Proof.
  intros Hdays Hnone Hall Hne. cbv zeta.
  destruct calls as [|[[req body] clk] calls]; [done|].
  apply on_consecutive_days_cons in Hdays as [(Hd & Ht & Hy) Hdays].
  simpl in Hd, Ht, Hy. simpl in Hall |- *.
  destruct (post_api_drop req body clk s) as [r s1] eqn:E.
  pose proof (serve_consecutive_from_row d calls (first + 1) s1 1 1 Hdays) as H.
  destruct (serve calls s1) as [rs s2] eqn:E2. simpl in Hall, H |- *.
  apply Forall_cons in Hall as [Hacc Hall].
  destruct r; try discriminate.
  assert (Hok : (post_api_drop req body clk s).1 = DropOk todayCount)
    by (by rewrite E).
  pose proof (post_api_drop_ok_inv _ _ _ _ _ Hok) as E'.
  rewrite E in E'. injection E' as _ Hs1.
  assert (Hrow1 : streaks s1 !! d = Some (mkStreak 1 1 (Some (first + 1 - 1)))).
  { rewrite Hs1. simpl. rewrite Hd, lookup_insert_eq, Hnone. simpl.
    rewrite Ht. same_streak_row. }
  rewrite (H Hrow1 ltac:(lia) Hall). same_streak_row.
Qed.

(** ** The config upsert of the sibling file *)

(** X24.  In the sibling file an authorised upsert is all or nothing: with
    no statement refused it answers Success with every pair written, and
    with some statement refused it fails and gives back the store exactly
    as it was, whichever statement it is. *)
Theorem config_upsert_sqlite_all_or_nothing req fails updates s :
  x_admin_key req = Some ADMIN_KEY ->
  match first_refused fails 0 (length updates) with
  | None =>
      put_api_admin_config_sqlite req fails updates s =
        (Success,
         mkStore (drops s) (streaks s) (all_written updates (config s)))
  | Some _ =>
      put_api_admin_config_sqlite req fails updates s = (DatabaseError, s)
  end.
Proof.
  intros Hk. unfold put_api_admin_config_sqlite, requireAdmin, transaction.
  rewrite decide_True by done.
  destruct (upsert_entries_first_refused fails updates 0 (config s)) as [E _].
  rewrite E. destruct (first_refused fails 0 (length updates)); [|done].
  by destruct s.
Qed.

(** ** The figures of the admin dashboard *)

Lemma hour_of_range t : 0 <= hour_of t < 24.
Proof.
  unfold hour_of, ms_per_day, ms_per_hour.
  pose proof (Z.mod_pos_bound t 86400000 ltac:(lia)) as H. split.
  - apply Z.div_pos; lia.
  - apply Z.div_lt_upper_bound; lia.
Qed.

(** The sum of [g] over a list of hours. *)
Lemma sum_of_positive_rows (g : Z -> Z) hs :
  (forall h, 0 <= g h) ->
  foldr (fun row acc => row.2 + acc) 0
    (filter (fun row : Z * Z => 0 < row.2) ((fun h => (h, g h)) <$> hs)) =
  foldr (fun h acc => g h + acc) 0 hs.
Proof.
  intros Hg. induction hs as [|h hs IH]; [done|]. rewrite fmap_cons.
  cbn [foldr]. destruct (decide (0 < g h)) as [Hp|Hz].
  - rewrite filter_cons_True by done. cbn [foldr snd]. by rewrite IH.
  - rewrite filter_cons_False by done. rewrite IH. specialize (Hg h). lia.
Qed.

Lemma hours_of_positive_rows (g : Z -> Z) hs :
  (filter (fun row : Z * Z => 0 < row.2) ((fun h => (h, g h)) <$> hs)).*1
    `sublist_of` hs.
Proof.
  induction hs as [|h hs IH]; [done|]. rewrite fmap_cons.
  destruct (decide (0 < g h)) as [Hp|Hz].
  - rewrite filter_cons_True by done. rewrite fmap_cons. by apply sublist_skip.
  - rewrite filter_cons_False by done. by apply sublist_cons.
Qed.

Lemma sum_of_indicator (x : Z) hs :
  NoDup hs ->
  foldr (fun h acc => (if bool_decide (x = h) then 1 else 0) + acc) 0 hs =
  if bool_decide (x ∈ hs) then 1 else 0.
Proof.
  induction 1 as [|h hs Hnot Hnd IH]; [done|]. simpl. rewrite IH.
  destruct (decide (x = h)) as [->|Hne].
  - rewrite bool_decide_eq_true_2 by done.
    rewrite (bool_decide_eq_false_2 (h ∈ hs)) by done.
    rewrite bool_decide_eq_true_2; [done|]. by left.
  - rewrite bool_decide_eq_false_2 by done.
    destruct (decide (x ∈ hs)) as [Hin|Hout].
    + rewrite !bool_decide_eq_true_2; [done| by right | done].
    + rewrite !bool_decide_eq_false_2; [done| | done].
      intros [?|?]%elem_of_cons; done.
Qed.

Lemma count_on_day_at_hour_cons day h r l :
  count_on_day_at_hour day h (r :: l) =
  (if on_day day r && bool_decide (hour_of (created_at r) = h) then 1 else 0) +
  count_on_day_at_hour day h l.
Proof.
  unfold count_on_day_at_hour.
  destruct (on_day day r && bool_decide (hour_of (created_at r) = h)) eqn:E.
  - rewrite filter_cons_True by done. simpl length. lia.
  - rewrite filter_cons_False; [lia|]. by rewrite E.
Qed.

Lemma sum_over_hours day l hs :
  NoDup hs ->
  (forall t, hour_of t ∈ hs) ->
  foldr (fun h acc => count_on_day_at_hour day h l + acc) 0 hs =
  count_on_day day l.
Proof.
  intros Hnd Hall. induction l as [|r l IH].
  - unfold count_on_day. simpl. clear. induction hs as [|h hs IH]; [done|].
    simpl. rewrite IH. done.
  - assert (Hsplit : forall hs',
      foldr (fun h acc => count_on_day_at_hour day h (r :: l) + acc) 0 hs' =
      foldr (fun h acc =>
        (if bool_decide (hour_of (created_at r) = h) then 1 else 0) + acc) 0 hs'
        * (if on_day day r then 1 else 0) +
      foldr (fun h acc => count_on_day_at_hour day h l + acc) 0 hs').
    { induction hs' as [|h hs' IH']; [done|]. simpl.
      rewrite IH', count_on_day_at_hour_cons.
      destruct (on_day day r), (bool_decide (hour_of (created_at r) = h));
        simpl; lia. }
    rewrite Hsplit, IH, sum_of_indicator by done.
    rewrite bool_decide_eq_true_2 by apply Hall.
    unfold count_on_day. destruct (on_day day r) eqn:E.
    + rewrite filter_cons_True by done. simpl length. lia.
    + rewrite filter_cons_False; [lia|]. by rewrite E.
Qed.

Lemma all_hours t : hour_of t ∈ seqZ 0 24.
Proof. apply elem_of_seqZ. pose proof (hour_of_range t). lia. Qed.

Lemma length_remove_dups_le {A} `{EqDecision A} (l : list A) :
  (length (remove_dups l) <= length l)%nat.
Proof.
  induction l as [|x l IH]; simpl; [done|].
  destruct (decide_rel elem_of x l); simpl; lia.
Qed.

Lemma remove_dups_nil_iff {A} `{EqDecision A} (l : list A) :
  remove_dups l = [] <-> l = [].
Proof.
  split; [|by intros ->].
  destruct l as [|x l]; [done|]. intros H.
  assert (Hx : x ∈ remove_dups (x :: l)).
  { apply elem_of_remove_dups. by left. }
  rewrite H in Hx. by apply elem_of_nil in Hx.
Qed.

Lemma count_since_ge_count_on_day weekAgo day l :
  weekAgo <= day -> count_on_day day l <= count_since weekAgo l.
Proof.
  intros Hle. unfold count_on_day, count_since. apply inj_le.
  induction l as [|r l IH]; [done|].
  destruct (on_day day r) eqn:E.
  - rewrite filter_cons_True by done.
    rewrite filter_cons_True.
    + simpl. lia.
    + apply bool_decide_eq_true. unfold on_day in E.
      apply bool_decide_eq_true in E. lia.
  - rewrite filter_cons_False by (by rewrite E).
    destruct (bool_decide (weekAgo <= isoDate (created_at r))) eqn:E'.
    + rewrite filter_cons_True by done. simpl. lia.
    + rewrite filter_cons_False; [done|]. by rewrite E'.
Qed.

(** X25.  The figures of [GET /api/admin/stats] fit together, whatever the
    ledger holds: the distinct devices of today are at most the drops of
    today and there is none exactly when there is no drop; no figure
    exceeds the all-time count; the hourly rows are in ascending order of
    the hour, within 0 to 23, each with at least one drop, and their counts
    add up to the drops of today; and the drops of today are part of those
    of the week as soon as the day the week starts on is not after today. *)
Theorem stats_fit_together req clk s :
  x_admin_key req = Some ADMIN_KEY ->
  exists st,
    get_api_admin_stats req clk s = Some st /\
    0 <= stats_uniqueToday st <= stats_today st /\
    (stats_uniqueToday st = 0 <-> stats_today st = 0) /\
    stats_today st <= stats_allTime st /\
    stats_yesterday st <= stats_allTime st /\
    stats_thisWeek st <= stats_allTime st /\
    (stats_hourly st).*1 `sublist_of` seqZ 0 24 /\
    Forall (fun row => 0 < row.2) (stats_hourly st) /\
    foldr (fun row acc => row.2 + acc) 0 (stats_hourly st) = stats_today st /\
    (isoDate (now_weekAgo clk) - 7 <= isoDate (now_today clk) ->
     stats_today st <= stats_thisWeek st).
Proof.
  intros Hk. unfold get_api_admin_stats. rewrite decide_True by done.
  eexists. split; [reflexivity|]. simpl.
  set (today := isoDate (now_today clk)).
  set (l := drops s).
  split_and!.
  - unfold unique_on_day. lia.
  - unfold unique_on_day, count_on_day. apply inj_le.
    etrans; [apply length_remove_dups_le|]. by rewrite length_fmap.
  - unfold unique_on_day, count_on_day.
    rewrite <- !Nat2Z.inj_0, !Nat2Z.inj_iff, !length_zero_iff_nil.
    rewrite remove_dups_nil_iff.
    split; [apply fmap_nil_inv | by intros ->].
  - unfold count_on_day, count_all. apply inj_le, length_filter.
  - unfold count_on_day, count_all. apply inj_le, length_filter.
  - unfold count_since, count_all. apply inj_le, length_filter.
  - apply hours_of_positive_rows.
  - unfold hourly_on_day. apply Forall_forall. intros row Hrow.
    by apply list_elem_of_filter in Hrow as [? _].
  - unfold hourly_on_day. rewrite sum_of_positive_rows.
    + apply sum_over_hours; [apply NoDup_seqZ | apply all_hours].
    + intros h. unfold count_on_day_at_hour. lia.
  - intros Hweek. apply count_since_ge_count_on_day.
    replace (7 * ms_per_day) with (ms_per_day + (ms_per_day + (ms_per_day +
      (ms_per_day + (ms_per_day + (ms_per_day + ms_per_day))))))
      by (unfold ms_per_day; lia).
    rewrite !Z.sub_add_distr, !isoDate_day_before. fold today. lia.
Qed.

(** ** The drop with a store that may refuse *)

(** The outcomes of the handler: a refusal before any write, one of the
    three admission answers, a refusal of the insertion, a refusal after
    the insertion, a refusal after the streak, or the acceptance. *)
Lemma post_api_drop_on_inv b fails req body clk s :
  let out := post_api_drop_on b fails req body clk s in
  let d := getDeviceHash req in
  let s1 := mkStore (drops s ++ [drop_of req body clk s]) (streaks s) (config s) in
  let s2 := mkStore (drops s ++ [drop_of req body clk s])
              (<[d := streak_after (streaks s !! d) (today_of clk)
                        (yesterday_of clk)]> (streaks s)) (config s) in
  ((fails 0%nat = true \/ fails 1%nat = true) /\ out = (DatabaseError, s)) \/
  (fails 0%nat = false /\ fails 1%nat = false /\
   ((cap_reached req clk s /\ out = (AlreadyDroppedToday, s)) \/
    (~ cap_reached req clk s /\ ~ valid_mode (mode_of body) /\
       out = (InvalidMode, s)) \/
    (~ cap_reached req clk s /\ valid_mode (mode_of body) /\
       flag_off s (mode_of body) /\ out = (ModeDisabled, s)) \/
    (~ cap_reached req clk s /\ valid_mode (mode_of body) /\
       ~ flag_off s (mode_of body) /\
       ((fails 2%nat = true \/ takes_char_count b (size_of body s) = false) /\
          out = (DatabaseError, s) \/
        fails 2%nat = false /\ takes_char_count b (size_of body s) = true /\
          (((fails 3%nat = true \/ fails 4%nat = true) /\
              out = (DatabaseError, s1)) \/
           (fails 3%nat = false /\ fails 4%nat = false /\
              fails 5%nat = true /\ out = (DatabaseError, s2)) \/
           (fails 3%nat = false /\ fails 4%nat = false /\
              fails 5%nat = false /\
              out = (DropOk (count_on_day (today_of clk) (drops s2)), s2))))))).
Proof.
  cbv zeta. unfold post_api_drop_on. cbv zeta.
  change (parseInt (or_else (config s !! "drops_per_day") "1"))
    with (maxDrops (config s)).
  change (Math_min (ToNumber (charCount_of body))
            (parseInt (or_else (config s !! "max_chars") "200")))
    with (size_of body s).
  destruct (fails 0%nat) eqn:F0; [left; auto|].
  destruct (fails 1%nat) eqn:F1; [left; auto|].
  right. split; [done|]. split; [done|].
  destruct (js_ge _ (maxDrops (config s))) eqn:Hc.
  { left. by rewrite cap_reached_iff. }
  assert (Hc' : ~ cap_reached req clk s).
  { rewrite cap_reached_iff. by rewrite Hc. }
  right. destruct (includes validModes (mode_of body)) eqn:Hv; simpl.
  2: { left. split_and!; [done| |done]. rewrite <- includes_validModes.
       by rewrite Hv. }
  apply includes_validModes in Hv. right.
  destruct (mode_disabled (config s) (mode_of body)) eqn:Hf.
  { left. split_and!; [done..| |done]. by apply mode_disabled_iff. }
  assert (Hf' : ~ flag_off s (mode_of body)).
  { rewrite <- (mode_disabled_iff s _ Hv). by rewrite Hf. }
  right. split_and!; [done..|].
  destruct (fails 2%nat) eqn:F2; simpl; [left; auto|].
  destruct (takes_char_count b (size_of body s)) eqn:Ht; simpl; [|left; auto].
  right. split_and!; [done..|].
  assert (Hst :
    match streaks s !! getDeviceHash req with
    | Some streak =>
        <[getDeviceHash req :=
            mkStreak (newStreak streak (today_of clk) (yesterday_of clk))
              (Z.max (newStreak streak (today_of clk) (yesterday_of clk))
                 (longest_streak streak))
              (Some (today_of clk))]> (streaks s)
    | None => <[getDeviceHash req := mkStreak 1 1 (Some (today_of clk))]> (streaks s)
    end =
    <[getDeviceHash req :=
        streak_after (streaks s !! getDeviceHash req) (today_of clk)
          (yesterday_of clk)]> (streaks s)).
  { by destruct (streaks s !! getDeviceHash req). }
  rewrite Hst.
  destruct (fails 3%nat) eqn:F3; [left; auto|].
  destruct (fails 4%nat) eqn:F4; [left; auto|].
  destruct (fails 5%nat) eqn:F5; right; [left|right]; auto.
Qed.

(** When the store refuses nothing and takes the size, the handler is the
    one of the first part. *)
Lemma post_api_drop_on_answered b fails req body clk s :
  none_refused fails ->
  takes_char_count b (size_of body s) = true ->
  post_api_drop_on b fails req body clk s = post_api_drop req body clk s.
Proof.
  intros Hn Ht. pose proof (Hn 0%nat). pose proof (Hn 1%nat).
  pose proof (Hn 2%nat). pose proof (Hn 3%nat). pose proof (Hn 4%nat).
  pose proof (Hn 5%nat).
  destruct (post_api_drop_on_inv b fails req body clk s)
    as [[[?|?] _]|(_ & _ & [[Hc E]|[(Hc & Hv & E)|[(Hc & Hv & Hf & E)
       |(Hc & Hv & Hf & [[[?|?] _]|(_ & _ & [[[?|?] _]|[(_ & _ & ? & _)
       |(_ & _ & _ & E)]])])]]])]; try congruence; rewrite E; symmetry.
  - by apply post_api_drop_capped.
  - by apply post_api_drop_invalid.
  - by apply post_api_drop_disabled.
  - by apply post_api_drop_accepted.
Qed.

(** C2, as the code has it.  When the config and the count are read, the
    admission checks run in the order daily cap, mode validity, mode
    enablement, and each of the three refusals leaves the store as it was.
    An accepted call makes exactly one insertion into the ledger and one
    upsert of the streak.  A call answered 500 keeps what was committed
    before the store refused: nothing, the drop alone, or the drop and the
    streak.  With no refusal and a size the store takes, a request that
    passes the three checks is accepted. *)
Theorem admission_checks_and_writes b fails req body clk s :
  let r := (post_api_drop_on b fails req body clk s).1 in
  let s' := (post_api_drop_on b fails req body clk s).2 in
  let d := getDeviceHash req in
  (fails 0%nat = false -> fails 1%nat = false -> cap_reached req clk s ->
     r = AlreadyDroppedToday /\ no_mutation s s') /\
  (fails 0%nat = false -> fails 1%nat = false -> ~ cap_reached req clk s ->
     ~ valid_mode (mode_of body) -> r = InvalidMode /\ no_mutation s s') /\
  (fails 0%nat = false -> fails 1%nat = false -> ~ cap_reached req clk s ->
     valid_mode (mode_of body) -> flag_off s (mode_of body) ->
     r = ModeDisabled /\ no_mutation s s') /\
  (r = AlreadyDroppedToday \/ r = InvalidMode \/ r = ModeDisabled ->
     no_mutation s s') /\
  (accepted r = true -> one_drop_one_streak d s s') /\
  (r = DatabaseError ->
     no_mutation s s' \/ one_drop_no_streak d s s' \/ one_drop_one_streak d s s') /\
  (none_refused fails -> takes_char_count b (size_of body s) = true ->
     ~ cap_reached req clk s -> valid_mode (mode_of body) ->
     ~ flag_off s (mode_of body) -> accepted r = true).
Proof.
  cbv zeta. unfold no_mutation.
  assert (H1 : one_drop_no_streak (getDeviceHash req) s
                 (mkStore (drops s ++ [drop_of req body clk s]) (streaks s)
                    (config s))).
  { repeat split; simpl; eauto. }
  assert (H2 : forall st, one_drop_one_streak (getDeviceHash req) s
                 (mkStore (drops s ++ [drop_of req body clk s])
                    (<[getDeviceHash req := st]> (streaks s)) (config s))).
  { intros st. repeat split; simpl; eauto. }
  destruct (post_api_drop_on_inv b fails req body clk s)
    as [[F E]|(F0 & F1 & [[Hc E]|[(Hc & Hv & E)|[(Hc & Hv & Hf & E)
       |(Hc & Hv & Hf & [[F E]|(F2 & Ht & [[F E]|[(F3 & F4 & F5 & E)
       |(F3 & F4 & F5 & E)]])])]]])]; rewrite E; simpl;
    (split_and!;
     [ intros; try done; destruct F; congruence
     | intros; try done; destruct F; congruence
     | intros; try done; destruct F; congruence
     | intros [?|[?|?]]; done
     | intros; try done; auto
     | intros; auto
     | intros Hn; intros; try done;
       try (destruct F as [F|F]; rewrite ?Hn in F; congruence);
       try (rewrite Hn in F5; congruence) ]).
Qed.

(** C7, as the code has it.  The row of an accepted call holds the result
    of [Math.min] on the submitted size and the [max_chars] parsed from the
    config.  Whenever both are numbers this is the smaller of the two, at
    most [max_chars]; with PostgreSQL that is every accepted call, since the
    insertion of anything else is refused. *)
Theorem stored_charCount_min_of_numbers b fails req body clk s n :
  (post_api_drop_on b fails req body clk s).1 = DropOk n ->
  let max_chars := parseInt (or_else (config s !! "max_chars") "200") in
  exists row,
    drops (post_api_drop_on b fails req body clk s).2 = (drops s ++ [row])%list /\
    char_count row =
      JNumber (Math_min (ToNumber (charCount_of body)) max_chars) /\
    (forall z m, ToNumber (charCount_of body) = Int z -> max_chars = Int m ->
       char_count row = JNumber (Int (Z.min z m)) /\
       Z.min z m <= m /\
       js_le (ToNumber (char_count row)) max_chars = true) /\
    (b = Postgres ->
     exists z m, ToNumber (charCount_of body) = Int z /\ max_chars = Int m /\
       char_count row = JNumber (Int (Z.min z m)) /\ Z.min z m <= m).
Proof.
  intros Hok. cbv zeta.
  destruct (post_api_drop_on_inv b fails req body clk s)
    as [[F E]|(F0 & F1 & [[Hc E]|[(Hc & Hv & E)|[(Hc & Hv & Hf & E)
       |(Hc & Hv & Hf & [[F E]|(F2 & Ht & [[F E]|[(F3 & F4 & F5 & E)
       |(F3 & F4 & F5 & E)]])])]]])]; rewrite E in Hok |- *;
    try discriminate.
  cbn [snd drops]. eexists. split; [reflexivity|].
  unfold drop_of. cbn [char_count]. split; [reflexivity|]. split.
  - intros z m Hz Hm. unfold maxChars. rewrite Hz, Hm. simpl.
    split_and!; [done | lia | apply bool_decide_eq_true; lia].
  - intros ->. unfold size_of in Ht. simpl in Ht. unfold maxChars.
    destruct (ToNumber (charCount_of body)) as [z|];
      destruct (parseInt (or_else (config s !! "max_chars") "200")) as [m|];
      try discriminate.
    exists z, m. simpl. split_and!; [done | done | done | lia].
Qed.

(** C8, as the code has it.  The stored size is the smaller of the
    submitted size and the [max_chars] parsed from the config, and is
    bounded above only: it is non-negative when the submitted size and
    [max_chars] both are, and a negative submitted size is stored as a
    negative size. *)
Theorem stored_charCount_sign b fails req body clk s n z m :
  (post_api_drop_on b fails req body clk s).1 = DropOk n ->
  ToNumber (charCount_of body) = Int z ->
  parseInt (or_else (config s !! "max_chars") "200") = Int m ->
  exists row v,
    drops (post_api_drop_on b fails req body clk s).2 = (drops s ++ [row])%list /\
    char_count row = JNumber (Int v) /\
    v = Z.min z m /\
    (0 <= z -> 0 <= m -> 0 <= v) /\
    (z < 0 -> v < 0).
Proof.
  intros Hok Hz Hm.
  destruct (post_api_drop_on_inv b fails req body clk s)
    as [[F E]|(F0 & F1 & [[Hc E]|[(Hc & Hv & E)|[(Hc & Hv & Hf & E)
       |(Hc & Hv & Hf & [[F E]|(F2 & Ht & [[F E]|[(F3 & F4 & F5 & E)
       |(F3 & F4 & F5 & E)]])])]]])]; rewrite E in Hok |- *;
    try discriminate.
  cbn [snd drops]. exists (drop_of req body clk s), (Z.min z m).
  split; [reflexivity|]. split.
  - unfold drop_of, maxChars. cbn [char_count]. by rewrite Hz, Hm.
  - split; [reflexivity|]. lia.
Qed.

(** C9, as the code has it.  When the stored [drops_per_day] is a non-empty
    string on which [parseInt] yields NaN, no request is ever answered
    AlreadyDroppedToday, whatever the device has already recorded and
    whichever statements the store refuses. *)
Theorem cap_unreachable_when_NaN b fails req body clk s v :
  config s !! "drops_per_day" = Some v ->
  v <> "" ->
  parseInt v = NaN ->
  (post_api_drop_on b fails req body clk s).1 <> AlreadyDroppedToday /\
  (post_api_drop req body clk s).1 <> AlreadyDroppedToday.
Proof.
  intros Hv Hne Hnan.
  assert (Hmax : maxDrops (config s) = NaN).
  { unfold maxDrops. rewrite Hv. simpl. by rewrite decide_False. }
  assert (Hc : ~ cap_reached req clk s).
  { intros (N & HN & _). congruence. }
  split.
  - destruct (post_api_drop_on_inv b fails req body clk s)
      as [[F E]|(F0 & F1 & [[Hc' E]|[(_ & Hv' & E)|[(_ & _ & Hf & E)
         |(_ & _ & _ & [[F E]|(F2 & Ht & [[F E]|[(F3 & F4 & F5 & E)
         |(F3 & F4 & F5 & E)]])])]]])]; try done; by rewrite E.
  - destruct (post_api_drop_inv req body clk s)
      as [[Hc' _]|[(_ & _ & E)|[(_ & _ & _ & E)|(_ & _ & _ & E)]]];
      [done | by rewrite E..].
Qed.

(** C10, as the code has it.  An omitted [mode] is "type" and an omitted
    [charCount] is 0, and the request is handled as the one that spells the
    defaults out.  With [mode] omitted it is accepted as a type drop
    whenever the cap is not reached, [type_enabled] is not the string
    false, and the store refuses no statement and takes the size; with
    [charCount] omitted too the recorded size is the smaller of 0 and
    [max_chars], that is 0 as soon as [max_chars] parses to a non-negative
    number.  When the store does not take the size the answer is 500 and
    nothing is written. *)
Theorem omitted_fields_are_defaulted b fails req body clk s :
  (body_mode body = None -> mode_of body = JStr "type") /\
  (body_charCount body = None -> charCount_of body = JNumber (Int 0)) /\
  post_api_drop_on b fails req body clk s =
    post_api_drop_on b fails req
      (mkBody (Some (mode_of body)) (Some (charCount_of body))) clk s /\
  (body_mode body = None ->
   ~ cap_reached req clk s ->
   config s !! "type_enabled" <> Some "false" ->
   none_refused fails ->
   takes_char_count b (size_of body s) = true ->
   exists row,
     accepted (post_api_drop_on b fails req body clk s).1 = true /\
     drops (post_api_drop_on b fails req body clk s).2 = (drops s ++ [row])%list /\
     device_hash row = getDeviceHash req /\
     mode row = JStr "type" /\
     (body_charCount body = None ->
      char_count row =
        JNumber (Math_min (Int 0)
                   (parseInt (or_else (config s !! "max_chars") "200"))) /\
      forall m, parseInt (or_else (config s !! "max_chars") "200") = Int m ->
                0 <= m -> char_count row = JNumber (Int 0))) /\
  (body_mode body = None ->
   ~ cap_reached req clk s ->
   config s !! "type_enabled" <> Some "false" ->
   fails 0%nat = false -> fails 1%nat = false ->
   takes_char_count b (size_of body s) = false ->
   post_api_drop_on b fails req body clk s = (DatabaseError, s)).
Proof.
  assert (Hflag : body_mode body = None ->
            config s !! "type_enabled" <> Some "false" ->
            mode_of body = JStr "type" /\ valid_mode (mode_of body) /\
            ~ flag_off s (mode_of body)).
  { intros Hm Hf. assert (Hmode : mode_of body = JStr "type")
      by (unfold mode_of; by rewrite Hm).
    rewrite Hmode. split_and!; [done | by left |].
    intros (m & [= <-] & H). done. }
  split_and!.
  - unfold mode_of. by intros ->.
  - unfold charCount_of. by intros ->.
  - reflexivity.
  - intros Hm Hc Hf Hn Ht. destruct (Hflag Hm Hf) as (Hmode & Hv & Hoff).
    rewrite (post_api_drop_on_answered b fails req body clk s Hn Ht).
    rewrite (post_api_drop_accepted _ _ _ _ Hc Hv Hoff). simpl.
    eexists. split_and!; try reflexivity; simpl; [done|].
    intros Hcc. unfold charCount_of, maxChars. rewrite Hcc. simpl.
    split; [done|]. intros m -> Hpos. simpl. do 2 f_equal. lia.
  - intros Hm Hc Hf F0 F1 Ht. destruct (Hflag Hm Hf) as (Hmode & Hv & Hoff).
    destruct (post_api_drop_on_inv b fails req body clk s)
      as [[F E]|(_ & _ & [[Hc' E]|[(_ & Hv' & E)|[(_ & _ & Hf' & E)
         |(_ & _ & _ & [[F E]|(F2 & Ht' & _)])]]])]; try done;
      try congruence; try (destruct F; congruence).
Qed.

(** X14.  On the freshly seeded database every request with a valid mode
    is accepted, whoever sends it, provided the store refuses no statement
    and takes the size, and gives its device the streak row (1, 1, today);
    once the row is stamped with today, every further request of that device
    on that day whose reads are answered gets AlreadyDroppedToday.  A size
    the store does not take is answered 500 and nothing is written. *)
Theorem first_drop_on_fresh_database b fails req body clk :
  valid_mode (mode_of body) ->
  let out := post_api_drop_on b fails req body clk (initDB empty_store) in
  (none_refused fails ->
   takes_char_count b (size_of body (initDB empty_store)) = true ->
   accepted out.1 = true /\
   streaks out.2 !! getDeviceHash req =
     Some (mkStreak 1 1 (Some (today_of clk))) /\
   (isoDate (now_insert clk) = today_of clk ->
    forall b' fails' body' clk',
      fails' 0%nat = false -> fails' 1%nat = false ->
      today_of clk' = today_of clk ->
      (post_api_drop_on b' fails' req body' clk' out.2).1 =
        AlreadyDroppedToday)) /\
  (fails 0%nat = false -> fails 1%nat = false ->
   takes_char_count b (size_of body (initDB empty_store)) = false ->
   out = (DatabaseError, initDB empty_store)).
Proof.
  intros Hv. cbv zeta.
  assert (Hc : ~ cap_reached req clk (initDB empty_store)).
  { intros (N & HN & Hle). rewrite (proj1 seeded_limits) in HN.
    injection HN as <-. unfold count_device_on_day in Hle.
    cbn [drops initDB empty_store length filter] in Hle.
    change (1 <= 0) in Hle. lia. }
  split.
  - intros Hn Ht. rewrite (post_api_drop_on_answered _ _ _ _ _ _ Hn Ht).
    destruct (first_drop_of_a_device req body clk (initDB empty_store))
      as (Ha & Hrow & Hnext);
      [apply seeded_limits | reflexivity | apply lookup_empty | done
      | by apply seeded_flags |].
    split_and!; [done..|]. intros Hi b' fails' body' clk' F0 F1 Hday.
    pose proof (Hnext Hi body' clk' Hday) as H429.
    apply post_api_drop_refused_iff in H429.
    destruct (post_api_drop_on_inv b' fails' req body' clk'
                (post_api_drop req body clk (initDB empty_store)).2)
      as [[[F|F] _]|(_ & _ & [[_ E]|[(Hc' & _)|[(Hc' & _)|(Hc' & _)]]])];
      try congruence; try done.
    by rewrite E.
  - intros F0 F1 Ht.
    destruct (post_api_drop_on_inv b fails req body clk (initDB empty_store))
      as [[[F|F] _]|(_ & _ & [[Hc' _]|[(_ & Hv' & _)|[(_ & _ & Hf' & _)
         |(_ & _ & _ & [[_ E]|(_ & Ht' & _)])]]])]; try congruence; try done.
    by apply seeded_flags in Hf'.
Qed.

(** X18.  The reset of the counter reopens the cap: under a limit of at
    least one drop a day, a device that had reached it is accepted again on
    the same day, provided the store refuses no statement and takes the
    size, and when its last drop was of today and [yesterday] is the day
    before today its current streak stays what it was. *)
Theorem reset_counter_reopens_cap b fails admin now req body clk s N :
  x_admin_key admin = Some ADMIN_KEY ->
  isoDate now = today_of clk ->
  maxDrops (config s) = Int N ->
  0 < N ->
  valid_mode (mode_of body) ->
  ~ flag_off s (mode_of body) ->
  none_refused fails ->
  takes_char_count b (size_of body s) = true ->
  let s1 := (post_api_admin_reset_counter admin now s).2 in
  let out := post_api_drop_on b fails req body clk s1 in
  accepted out.1 = true /\
  forall old, streaks s !! getDeviceHash req = Some old ->
    last_drop_date old = Some (today_of clk) ->
    yesterday_of clk = today_of clk - 1 ->
    exists new, streaks out.2 !! getDeviceHash req = Some new /\
      current_streak new = current_streak old /\
      last_drop_date new = Some (today_of clk).
Proof.
  intros Hk Hday HN Hpos Hv Hf Hn Ht. cbv zeta.
  destruct (reset_counter_device_counts admin now s Hk) as (H0 & Hst & Hcfg).
  set (s1 := (post_api_admin_reset_counter admin now s).2) in *.
  assert (Ht1 : takes_char_count b (size_of body s1) = true).
  { unfold size_of in *. by rewrite Hcfg. }
  rewrite (post_api_drop_on_answered b fails req body clk s1 Hn Ht1).
  assert (Hc : ~ cap_reached req clk s1).
  { intros (N' & HN' & Hle). rewrite Hcfg, HN in HN'. injection HN' as <-.
    rewrite <- Hday, H0 in Hle. lia. }
  assert (Hf1 : ~ flag_off s1 (mode_of body)).
  { intros (m & Hm & H). apply Hf. exists m. by rewrite <- Hcfg. }
  rewrite (post_api_drop_accepted req body clk s1 Hc Hv Hf1). simpl.
  split; [done|]. intros old Hold Hlast Hy.
  rewrite lookup_insert_eq, Hst, Hold. eexists. split; [reflexivity|].
  simpl. unfold newStreak. rewrite Hy, Hlast.
  rewrite decide_False by (intros [=]; lia).
  by rewrite decide_True.
Qed.

End Handlers.

(** * The handlers at concrete inputs *)

(** C1.  A drop that starts at 23:59:59.999 and reaches the streak update
    at 00:00:00.001: the handler's [yesterday] is the day of [today].  A
    device whose last drop is of today, sending its second drop of the day
    under [drops_per_day] = 2, gets its streak raised from 3 to 4 where the
    rule leaves it unchanged. *)
Theorem streak_rule_across_midnight :
  let s := dropped_today (<["drops_per_day" := "2"]> (config seeded)) in
  let out := post_api_drop no_string_sizes undigested phone empty_body
               across_midnight s in
  today_of across_midnight = 19723 /\
  streaks s !! getDeviceHash undigested phone =
    Some (mkStreak 3 3 (Some 19723)) /\
  out.1 = DropOk 2 /\
  streaks out.2 !! getDeviceHash undigested phone =
    Some (mkStreak 4 4 (Some 19723)).
Proof. vm_compute. repeat split. Qed.

(** C4.  The two dates of one request come from two readings of the clock.
    With 2024-01-01T23:59:59.999Z on entry and 2024-01-02T00:00:00.001Z at
    the streak update, [today] and [yesterday] are both 2024-01-01, and a
    device that dropped on 2023-12-31 with a streak of 3 is set back to 1. *)
Theorem yesterday_is_today_across_midnight :
  let out := post_api_drop no_string_sizes undigested phone empty_body
               across_midnight dropped_yesterday in
  today_of across_midnight = 19723 /\
  yesterday_of across_midnight = 19723 /\
  yesterday_of across_midnight <> today_of across_midnight - 1 /\
  streaks dropped_yesterday !! getDeviceHash undigested phone =
    Some (mkStreak 3 3 (Some (today_of across_midnight - 1))) /\
  out.1 = DropOk 1 /\
  streaks out.2 !! getDeviceHash undigested phone =
    Some (mkStreak 1 3 (Some 19723)).
Proof. vm_compute. repeat split. discriminate. Qed.

(** C5.  In [server.js] a config upsert of two pairs whose second statement
    is refused answers 500 and leaves the first pair written: the config
    read afterwards is neither the old one nor the fully updated one.  The
    sibling file, at the same input, leaves the config as it was. *)
Theorem config_upsert_partial_on_failure :
  let updates := [("max_chars", JNumber (Int 100));
                  ("drops_per_day", JNumber (Int 3))] in
  let second_refused := fun i : nat => Nat.eqb i 1 in
  let out := put_api_admin_config default_admin_key operator second_refused
               updates seeded in
  let sibling := put_api_admin_config_sqlite default_admin_key operator
                   second_refused updates seeded in
  out.1 = DatabaseError /\
  get_config seeded !! "max_chars" = Some "200" /\
  get_config out.2 !! "max_chars" = Some "100" /\
  get_config out.2 !! "drops_per_day" = Some "1" /\
  get_config out.2 <> get_config seeded /\
  get_config out.2 <> all_written updates (get_config seeded) /\
  sibling.1 = DatabaseError /\
  get_config sibling.2 = get_config seeded.
Proof.
  cbv zeta. repeat apply conj.
  1-4, 7: vm_compute; reflexivity.
  - intros H. apply (f_equal (fun c => c !! "max_chars")) in H.
    vm_compute in H. discriminate.
  - intros H. apply (f_equal (fun c => c !! "drops_per_day")) in H.
    vm_compute in H. discriminate.
  - match goal with
    | |- get_config (put_api_admin_config_sqlite ?k ?r ?f ?u ?s).2 = _ =>
        destruct (put_api_admin_config_sqlite_atomic k r f u s) as [[H _]|[_ H]]
    end.
    + vm_compute in H. discriminate.
    + exact H.
Qed.

(** C2, refuted as stated: in [server.js], when the read of the streak is
    refused after the insertion of the drop, the request fails with 500 and
    the drop stays in the ledger with no streak row beside it. *)
Lemma refused_streak_read_leaves_the_drop :
  let streak_read_refused := fun i : nat => Nat.eqb i 3 in
  let out := post_api_drop_on no_string_sizes undigested Postgres
               streak_read_refused phone empty_body noon seeded in
  out.1 = DatabaseError /\
  accepted out.1 = false /\
  drops seeded = [] /\
  drops out.2 =
    [mkDrop (getDeviceHash undigested phone) (JStr "type")
       (JNumber (Int 0)) 1704110400000] /\
  streaks out.2 !! getDeviceHash undigested phone = None /\
  ~ no_mutation seeded out.2.
Proof.
  cbv zeta. repeat apply conj.
  1-5: vm_compute; reflexivity.
  intros H. apply (f_equal drops) in H. vm_compute in H. discriminate.
Qed.

(** C7, refuted as stated: in the sibling file, with [max_chars] set to a
    text [parseInt] cannot read, a request of size 500 is accepted and
    [Math.min] hands NaN to the store, which keeps no number for the row;
    the same happens on the default config with a size sent as the text
    abc.  What is recorded is not a number at or below [max_chars]. *)
Lemma unparsable_max_chars_stores_NaN :
  let s := mkStore [] ∅ (<["max_chars" := "abc"]> (config seeded)) in
  let body := mkBody (Some (JStr "type")) (Some (JNumber (Int 500))) in
  let out := post_api_drop_on no_string_sizes undigested Sqlite
               (fun _ => false) phone body noon s in
  let text := mkBody (Some (JStr "type")) (Some (JStr "abc")) in
  let out' := post_api_drop_on no_string_sizes undigested Sqlite
                (fun _ => false) phone text noon seeded in
  parseInt "abc" = NaN /\
  out.1 = DropOk 1 /\
  drops out.2 =
    [mkDrop (getDeviceHash undigested phone) (JStr "type")
       (JNumber NaN) 1704110400000] /\
  js_le NaN (maxChars (config s)) = false /\
  out'.1 = DropOk 1 /\
  drops out'.2 =
    [mkDrop (getDeviceHash undigested phone) (JStr "type")
       (JNumber NaN) 1704110400000] /\
  maxChars (config seeded) = Int 200 /\
  js_le NaN (maxChars (config seeded)) = false.
Proof. cbv zeta. repeat apply conj; vm_compute; reflexivity. Qed.

(** C8, refuted as stated: a submitted size of -5 is stored as -5. *)
Lemma negative_charCount_stored :
  let body := mkBody (Some (JStr "type")) (Some (JNumber (Int (-5)))) in
  let out := post_api_drop no_string_sizes undigested phone body noon seeded in
  out.1 = DropOk 1 /\
  drops out.2 =
    [mkDrop (getDeviceHash undigested phone) (JStr "type")
       (JNumber (Int (-5))) 1704110400000] /\
  ~ (0 <= -5).
Proof. vm_compute. repeat split. intros H. by apply H. Qed.

(** C9, refuted as stated: with the empty string stored under
    [drops_per_day], on which [parseInt] yields NaN, the limit falls back to
    1 and a device that dropped today is answered AlreadyDroppedToday. *)
Lemma empty_drops_per_day_still_caps :
  let s := dropped_today (<["drops_per_day" := ""]> (config seeded)) in
  config s !! "drops_per_day" = Some "" /\
  parseInt "" = NaN /\
  maxDrops (config s) = Int 1 /\
  (post_api_drop no_string_sizes undigested phone empty_body noon s).1 =
    AlreadyDroppedToday.
Proof. vm_compute. repeat split. Qed.

(** C10, refuted as stated: with [max_chars] set to -5 an empty body is
    accepted as a type drop of size -5. *)
Lemma empty_body_negative_size :
  let s := mkStore [] ∅ (<["max_chars" := "-5"]> (config seeded)) in
  let out := post_api_drop no_string_sizes undigested phone empty_body noon s in
  ~ cap_reached undigested phone noon s /\
  config s !! "type_enabled" <> Some "false" /\
  out.1 = DropOk 1 /\
  drops out.2 =
    [mkDrop (getDeviceHash undigested phone) (JStr "type")
       (JNumber (Int (-5))) 1704110400000].
Proof.
  cbv zeta. repeat apply conj.
  3-4: vm_compute; reflexivity.
  - rewrite cap_reached_iff. vm_compute. discriminate.
  - vm_compute. discriminate.
Qed.

(** * The theorems at concrete inputs *)



Lemma longest_streak_invariant_witness :
  let s := (run no_string_sizes undigested default_admin_key
              (SubmitDrop phone empty_body noon) (initDB empty_store)).2 in
  let s' := (run no_string_sizes undigested default_admin_key
               (ResetStreaks operator) s).2 in
  streaks s !! getDeviceHash undigested phone = Some (mkStreak 1 1 (Some 19723)) /\
  streaks s' !! getDeviceHash undigested phone = Some (mkStreak 0 1 (Some 19723)) /\
  (forall d r, streaks s' !! d = Some r -> current_streak r <= longest_streak r).
Proof.
  cbv zeta. split; [vm_compute; reflexivity|]. split; [vm_compute; reflexivity|].
  refine (proj1 (longest_streak_invariant no_string_sizes undigested
                   default_admin_key (ResetStreaks operator) _ _)).
  apply reachable_run, reachable_init.
Defined.


Lemma admission_checks_and_writes_witness :
  let out := post_api_drop_on no_string_sizes undigested Postgres
               (fun _ => false) phone empty_body noon seeded in
  accepted out.1 = true /\
  one_drop_one_streak (getDeviceHash undigested phone) seeded out.2.
Proof.
  cbv zeta.
  destruct (admission_checks_and_writes no_string_sizes undigested Postgres
              (fun _ => false) phone empty_body noon seeded)
    as (_ & _ & _ & _ & Hacc & _ & Hpass).
  assert (H : accepted
                (post_api_drop_on no_string_sizes undigested Postgres
                   (fun _ => false) phone empty_body noon seeded).1 = true).
  { apply Hpass.
    - intros i. reflexivity.
    - vm_compute. reflexivity.
    - rewrite cap_reached_iff. vm_compute. discriminate.
    - left. reflexivity.
    - exact (seeded_flags (mode_of empty_body) (or_introl eq_refl)). }
  exact (conj H (Hacc H)).
Defined.

Lemma stored_charCount_min_of_numbers_witness :
  let body := mkBody (Some (JStr "draw")) (Some (JNumber (Int 500))) in
  let out := post_api_drop_on no_string_sizes undigested Postgres
               (fun _ => false) phone body noon seeded in
  let max_chars := parseInt (or_else (config seeded !! "max_chars") "200") in
  out.1 = DropOk 1 /\
  max_chars = Int 200 /\
  exists row,
    drops out.2 = (drops seeded ++ [row])%list /\
    char_count row =
      JNumber (Math_min (ToNumber no_string_sizes (charCount_of body)) max_chars) /\
    (forall z m, ToNumber no_string_sizes (charCount_of body) = Int z ->
       max_chars = Int m ->
       char_count row = JNumber (Int (Z.min z m)) /\
       Z.min z m <= m /\
       js_le (ToNumber no_string_sizes (char_count row)) max_chars = true) /\
    (Postgres = Postgres ->
     exists z m, ToNumber no_string_sizes (charCount_of body) = Int z /\
       max_chars = Int m /\
       char_count row = JNumber (Int (Z.min z m)) /\ Z.min z m <= m).
Proof.
  cbv zeta. split; [vm_compute; reflexivity|]. split; [vm_compute; reflexivity|].
  apply (stored_charCount_min_of_numbers no_string_sizes undigested Postgres
           (fun _ => false) phone
           (mkBody (Some (JStr "draw")) (Some (JNumber (Int 500)))) noon seeded 1).
  vm_compute. reflexivity.
Defined.

Lemma stored_charCount_sign_witness :
  let body := mkBody (Some (JStr "speak")) (Some (JNumber (Int 50))) in
  let out := post_api_drop_on no_string_sizes undigested Postgres
               (fun _ => false) phone body noon seeded in
  exists row v,
    drops out.2 = (drops seeded ++ [row])%list /\
    char_count row = JNumber (Int v) /\
    v = Z.min 50 200 /\
    (0 <= 50 -> 0 <= 200 -> 0 <= v) /\
    (50 < 0 -> v < 0).
Proof.
  cbv zeta.
  apply (stored_charCount_sign no_string_sizes undigested Postgres
           (fun _ => false) phone
           (mkBody (Some (JStr "speak")) (Some (JNumber (Int 50)))) noon seeded
           1 50 200); vm_compute; reflexivity.
Defined.

Lemma cap_unreachable_when_NaN_witness :
  let s := dropped_today (<["drops_per_day" := "unlimited"]> (config seeded)) in
  parseInt "unlimited" = NaN /\
  (post_api_drop_on no_string_sizes undigested Postgres (fun _ => false)
     phone empty_body noon s).1 <> AlreadyDroppedToday /\
  (post_api_drop no_string_sizes undigested phone empty_body noon s).1 <>
    AlreadyDroppedToday.
Proof.
  cbv zeta. split; [vm_compute; reflexivity|].
  apply (cap_unreachable_when_NaN no_string_sizes undigested Postgres
           (fun _ => false) phone empty_body noon _ "unlimited");
    [vm_compute; reflexivity | discriminate | vm_compute; reflexivity].
Defined.

Lemma omitted_fields_are_defaulted_witness :
  let out := post_api_drop_on no_string_sizes undigested Postgres
               (fun _ => false) phone empty_body noon seeded in
  exists row,
    accepted out.1 = true /\
    drops out.2 = (drops seeded ++ [row])%list /\
    device_hash row = getDeviceHash undigested phone /\
    mode row = JStr "type" /\
    (body_charCount empty_body = None ->
     char_count row =
       JNumber (Math_min (Int 0)
                  (parseInt (or_else (config seeded !! "max_chars") "200"))) /\
     forall m, parseInt (or_else (config seeded !! "max_chars") "200") = Int m ->
               0 <= m -> char_count row = JNumber (Int 0)).
Proof.
  cbv zeta.
  destruct (omitted_fields_are_defaulted no_string_sizes undigested Postgres
              (fun _ => false) phone empty_body noon seeded)
    as (_ & _ & _ & Hacc & _).
  apply Hacc.
  - reflexivity.
  - rewrite cap_reached_iff. vm_compute. discriminate.
  - vm_compute. discriminate.
  - intros i. reflexivity.
  - vm_compute. reflexivity.
Defined.

(** * The further properties at concrete inputs *)

Lemma initDB_seeds_without_clobbering_witness :
  let s := mkStore [] ∅ {[ "max_chars" := "500" ]} in
  config (initDB s) !! "max_chars" = Some "500" /\
  config (initDB s) !! "drops_per_day" = Some "1".
Proof.
  cbv zeta.
  destruct (initDB_seeds_without_clobbering
              (mkStore [] ∅ {[ "max_chars" := "500" ]}))
    as (_ & _ & Hkeep & Hadd & _).
  split.
  - apply Hkeep. vm_compute. reflexivity.
  - apply Hadd.
    + apply (bool_decide_unpack _). vm_compute. exact I.
    + vm_compute. reflexivity.
Defined.

Lemma config_upsert_writes_every_pair_witness :
  let updates := [("max_chars", JNumber (Int 100)); ("announcement", JStr "hi")] in
  let out := put_api_admin_config default_admin_key operator (fun _ => false)
               updates seeded in
  get_config out.2 !! "max_chars" = Some "100" /\
  get_config out.2 !! "type_enabled" = get_config seeded !! "type_enabled".
Proof.
  cbv zeta.
  destruct (config_upsert_writes_every_pair default_admin_key operator
              [("max_chars", JNumber (Int 100)); ("announcement", JStr "hi")]
              seeded)
    as (_ & _ & _ & _ & Hin & Hout).
  - reflexivity.
  - apply (bool_decide_unpack _). vm_compute. exact I.
  - split.
    + apply (Hin "max_chars" (JNumber (Int 100))).
      apply (bool_decide_unpack _). vm_compute. exact I.
    + apply Hout. apply (bool_decide_unpack _). vm_compute. exact I.
Defined.

Lemma config_upsert_idempotent_witness :
  let updates := [("max_chars", JNumber (Int 100)); ("announcement", JStr "hi")] in
  let once := put_api_admin_config default_admin_key operator (fun _ => false)
                updates seeded in
  put_api_admin_config default_admin_key operator (fun _ => false) updates
    once.2 = once.
Proof.
  exact (config_upsert_idempotent default_admin_key operator
           [("max_chars", JNumber (Int 100)); ("announcement", JStr "hi")]
           seeded eq_refl).
Defined.

Lemma put_api_admin_config_prefix_witness :
  let updates := [("max_chars", JNumber (Int 100));
                  ("drops_per_day", JNumber (Int 3));
                  ("announcement", JStr "hi")] in
  let second_refused := fun i : nat => Nat.eqb i 1 in
  first_refused second_refused 0 (length updates) = Some 1%nat /\
  put_api_admin_config default_admin_key operator second_refused updates seeded =
    (DatabaseError,
     mkStore (drops seeded) (streaks seeded)
       (all_written (take 1 updates) (config seeded))).
Proof.
  cbv zeta. split; [reflexivity|].
  exact (proj1 (put_api_admin_config_prefix default_admin_key operator
                  (fun i : nat => Nat.eqb i 1)
                  [("max_chars", JNumber (Int 100));
                   ("drops_per_day", JNumber (Int 3));
                   ("announcement", JStr "hi")] seeded eq_refl)).
Defined.

Lemma upserted_limits_are_read_back_witness :
  let updates := [("drops_per_day", JNumber (Int 3)); ("max_chars", JNumber (Int 280))] in
  let out := put_api_admin_config default_admin_key operator (fun _ => false)
               updates seeded in
  maxDrops (config out.2) = Int 3 /\ maxChars (config out.2) = Int 280.
Proof.
  cbv zeta.
  destruct (upserted_limits_are_read_back default_admin_key operator
              [("drops_per_day", JNumber (Int 3)); ("max_chars", JNumber (Int 280))]
              seeded)
    as [Hd Hm].
  - reflexivity.
  - apply (bool_decide_unpack _). vm_compute. exact I.
  - split.
    + apply Hd; [apply (bool_decide_unpack _); vm_compute; exact I | lia].
    + apply Hm; [apply (bool_decide_unpack _); vm_compute; exact I | lia].
Defined.

Lemma unauthorized_changes_nothing_witness :
  let s := dropped_today (config seeded) in
  run no_string_sizes undigested default_admin_key (ResetStreaks phone) s =
    (Unauthorized, s).
Proof.
  cbv zeta.
  apply (unauthorized_changes_nothing no_string_sizes undigested
           default_admin_key (ResetStreaks phone) phone).
  - reflexivity.
  - discriminate.
Defined.

Lemma status_agrees_with_drop_witness :
  let s := dropped_today (config seeded) in
  status_hasDroppedToday (get_api_status undigested phone 1704110400000 s) = true /\
  (post_api_drop no_string_sizes undigested phone empty_body noon s).1 =
    AlreadyDroppedToday.
Proof.
  cbv zeta. split; [vm_compute; reflexivity|].
  apply (status_agrees_with_drop no_string_sizes undigested phone empty_body
           noon 1704110400000).
  - vm_compute. reflexivity.
  - vm_compute. reflexivity.
Defined.

Lemma accepted_drop_counts_witness :
  let today := today_of noon in
  let d := getDeviceHash undigested phone in
  let stamped_today :=
    if bool_decide (isoDate (now_insert noon) = today) then 1 else 0 in
  1 = count_on_day today (drops seeded) + stamped_today /\
  count_device_on_day d today
    (drops (post_api_drop no_string_sizes undigested phone empty_body noon
              seeded).2) =
    count_device_on_day d today (drops seeded) + stamped_today.
Proof.
  apply (accepted_drop_counts no_string_sizes undigested phone empty_body noon
           seeded 1).
  vm_compute. reflexivity.
Defined.

Lemma status_after_accepted_drop_witness :
  let s' := (post_api_drop no_string_sizes undigested phone empty_body noon
               seeded).2 in
  get_api_count 1704110400000 s' = 1 /\
  status_todayCount (get_api_status undigested phone 1704110400000 s') = 1.
Proof.
  cbv zeta.
  destruct (status_after_accepted_drop no_string_sizes undigested phone
              empty_body noon 1704110400000 seeded 1)
    as (H1 & H2 & _).
  - vm_compute. reflexivity.
  - vm_compute. reflexivity.
  - exact (conj H1 H2).
Defined.

Lemma drop_leaves_the_rest_witness :
  let s := dropped_today (config seeded) in
  let s' := (post_api_drop no_string_sizes undigested
               (mkReq (Some "10.0.0.9") (Some "curl/8.5") None)
               empty_body noon s).2 in
  streaks s' !! getDeviceHash undigested phone =
  streaks s !! getDeviceHash undigested phone.
Proof.
  cbv zeta.
  apply (proj1 (drop_leaves_the_rest no_string_sizes undigested
                  (mkReq (Some "10.0.0.9") (Some "curl/8.5") None)
                  empty_body noon (dropped_today (config seeded)))).
  vm_compute. discriminate.
Defined.

Lemma non_string_mode_is_invalid_witness :
  post_api_drop no_string_sizes undigested phone (mkBody (Some JNull) None)
    noon seeded = (InvalidMode, seeded).
Proof.
  apply (non_string_mode_is_invalid no_string_sizes undigested phone
           (mkBody (Some JNull) None) noon seeded JNull).
  - reflexivity.
  - discriminate.
  - rewrite cap_reached_iff. vm_compute. discriminate.
Defined.


Lemma joined_identity_is_shared_witness :
  getDeviceHash undigested (mkReq (Some "10.0.0.1") (Some "1Mozilla") None) =
  getDeviceHash undigested (mkReq (Some "10.0.0.11") (Some "Mozilla") None) /\
  getDeviceHash undigested (mkReq (Some ("10.0.0.1" +:+ "1")) (Some "Mozilla") None) =
  getDeviceHash undigested (mkReq (Some "10.0.0.1") (Some ("1" +:+ "Mozilla")) None).
Proof.
  split; [vm_compute; reflexivity|].
  exact (proj1 (joined_identity_is_shared no_string_sizes undigested
                  "10.0.0.1" "1" "Mozilla" None None)).
Defined.

Lemma ledger_is_append_only_witness :
  let o := SubmitDrop phone empty_body noon in
  drops (run no_string_sizes undigested default_admin_key o seeded).2 =
    drops seeded \/
  exists row,
    drops (run no_string_sizes undigested default_admin_key o seeded).2 =
      (drops seeded ++ [row])%list.
Proof.
  apply (ledger_is_append_only no_string_sizes undigested default_admin_key
           (SubmitDrop phone empty_body noon) seeded).
  reflexivity.
Defined.

Lemma reset_counter_clears_today_only_witness :
  let s := dropped_today (config seeded) in
  let out := post_api_admin_reset_counter default_admin_key operator
               1704110400000 s in
  get_api_count 1704110400000 s = 1 /\
  get_api_count 1704110400000 out.2 = 0.
Proof.
  cbv zeta. split; [vm_compute; reflexivity|].
  destruct (reset_counter_clears_today_only default_admin_key operator
              1704110400000 (dropped_today (config seeded)))
    as (_ & H0 & _).
  - reflexivity.
  - exact H0.
Defined.



Lemma yesterday_of_same_day_witness :
  yesterday_of noon = today_of noon - 1 /\
  isoDate (now_streak across_midnight) <> isoDate (now_entry across_midnight).
Proof.
  split.
  - apply (proj2 (yesterday_of_same_day noon)). vm_compute. reflexivity.
  - vm_compute. discriminate.
Defined.

Lemma reachable_store_is_well_formed_witness :
  let s := (run no_string_sizes undigested default_admin_key
              (AdminDrop operator empty_body 1704110400000)
              (run no_string_sizes undigested default_admin_key
                 (SubmitDrop phone empty_body noon) (initDB empty_store)).2).2 in
  rows_dated s /\ no_orphan_drop s.
Proof.
  apply (reachable_store_is_well_formed no_string_sizes undigested
           default_admin_key).
  apply reachable_run, reachable_run, reachable_init.
Defined.

Lemma reset_streaks_then_drop_witness :
  let s := (run no_string_sizes undigested default_admin_key
              (SubmitDrop phone empty_body noon) (initDB empty_store)).2 in
  let next_day := mkClock 1704196800000 1704196800000 1704196800000 in
  let s1 := (post_api_admin_reset_streaks default_admin_key operator s).2 in
  let out := post_api_drop no_string_sizes undigested phone empty_body
               next_day s1 in
  streaks out.2 !! getDeviceHash undigested phone =
    Some (mkStreak 1 1 (Some 19724)).
Proof.
  cbv zeta.
  refine (proj2 (reset_streaks_then_drop no_string_sizes undigested
                   default_admin_key operator phone empty_body
                   (mkClock 1704196800000 1704196800000 1704196800000)
                   _ (mkStreak 1 1 (Some 19723)) 1 _ _ _) _ _).
  - apply reachable_run, reachable_init.
  - reflexivity.
  - vm_compute. reflexivity.
  - vm_compute. reflexivity.
  - vm_compute. reflexivity.
Defined.

Lemma consecutive_days_build_the_streak_witness :
  let calls :=
    [(phone, empty_body, noon);
     (phone, empty_body, mkClock 1704196800000 1704196800000 1704196800000);
     (phone, empty_body, mkClock 1704283200000 1704283200000 1704283200000)] in
  streaks (serve no_string_sizes undigested calls seeded).2 !!
    getDeviceHash undigested phone =
  Some (mkStreak 3 3 (Some (19723 + 3 - 1))).
Proof.
  cbv zeta.
  refine (consecutive_days_build_the_streak no_string_sizes undigested
            (getDeviceHash undigested phone) 19723 _ seeded _ _ _ _).
  - intros [|[|[|i]]] call H; vm_compute in H; try discriminate;
      injection H as <-; vm_compute; repeat split.
  - vm_compute. reflexivity.
  - vm_compute. repeat constructor.
  - discriminate.
Defined.

Lemma config_upsert_sqlite_all_or_nothing_witness :
  let updates := [("max_chars", JNumber (Int 100));
                  ("drops_per_day", JNumber (Int 3))] in
  put_api_admin_config_sqlite default_admin_key operator
    (fun i : nat => Nat.eqb i 1) updates seeded = (DatabaseError, seeded).
Proof.
  exact (config_upsert_sqlite_all_or_nothing default_admin_key operator
           (fun i : nat => Nat.eqb i 1)
           [("max_chars", JNumber (Int 100)); ("drops_per_day", JNumber (Int 3))]
           seeded eq_refl).
Defined.

Lemma stats_fit_together_witness :
  let clk := mkStatsClock 1704110400000 1704110400000 1704110400000 in
  exists st,
    get_api_admin_stats default_admin_key operator clk
      (dropped_today (config seeded)) = Some st /\
    stats_uniqueToday st <= stats_today st /\
    stats_today st <= stats_thisWeek st.
Proof.
  cbv zeta.
  destruct (stats_fit_together default_admin_key operator
              (mkStatsClock 1704110400000 1704110400000 1704110400000)
              (dropped_today (config seeded)))
    as (st & E & [_ Hu] & _ & _ & _ & _ & _ & _ & _ & Hw).
  - reflexivity.
  - exists st. split; [exact E|]. split; [exact Hu|].
    apply Hw. vm_compute. discriminate.
Defined.

Lemma streak_rule_when_dates_agree_witness :
  let out := post_api_drop no_string_sizes undigested phone empty_body noon
               dropped_yesterday in
  yesterday_of noon = today_of noon - 1 /\
  exists new,
    streaks out.2 !! getDeviceHash undigested phone = Some new /\
    current_streak new = 3 + 1.
Proof.
  cbv zeta. split; [vm_compute; reflexivity|].
  pose proof (streak_rule_when_dates_agree no_string_sizes undigested phone
                empty_body noon dropped_yesterday 1) as H.
  cbv zeta in H.
  assert (Hold : streaks dropped_yesterday !! getDeviceHash undigested phone =
                 Some (mkStreak 3 3 (Some 19722))) by (vm_compute; reflexivity).
  rewrite Hold in H.
  destruct H as (new & Hnew & Hinc & _).
  - vm_compute. reflexivity.
  - vm_compute. reflexivity.
  - exists new. split; [exact Hnew|]. apply Hinc. vm_compute. reflexivity.
Defined.

Lemma parseInt_String_number_witness :
  parseInt (String_ (JNumber (Int 280))) = Int 280 /\
  parseInt (or_else (Some (String_ (JNumber (Int 280)))) "200") = Int 280.
Proof.
  destruct (parseInt_String_number 280 "200") as (H1 & H2 & _); [lia|].
  exact (conj H1 H2).
Defined.

Lemma first_drop_on_fresh_database_witness :
  let out := post_api_drop_on no_string_sizes undigested Postgres
               (fun _ => false) phone empty_body noon (initDB empty_store) in
  accepted out.1 = true /\
  streaks out.2 !! getDeviceHash undigested phone =
    Some (mkStreak 1 1 (Some (today_of noon))).
Proof.
  cbv zeta.
  destruct (first_drop_on_fresh_database no_string_sizes undigested Postgres
              (fun _ => false) phone empty_body noon (or_introl eq_refl))
    as [Hacc _].
  destruct Hacc as (H1 & H2 & _).
  - intros i. reflexivity.
  - vm_compute. reflexivity.
  - exact (conj H1 H2).
Defined.

Lemma reset_counter_reopens_cap_witness :
  let s := dropped_today (config seeded) in
  let s1 := (post_api_admin_reset_counter default_admin_key operator
               1704110400000 s).2 in
  (post_api_drop_on no_string_sizes undigested Postgres (fun _ => false)
     phone empty_body noon s).1 = AlreadyDroppedToday /\
  accepted (post_api_drop_on no_string_sizes undigested Postgres (fun _ => false)
              phone empty_body noon s1).1 = true.
Proof.
  cbv zeta. split; [vm_compute; reflexivity|].
  refine (proj1 (reset_counter_reopens_cap no_string_sizes undigested
                   default_admin_key Postgres (fun _ => false) operator
                   1704110400000 phone empty_body
                   noon (dropped_today (config seeded)) 1 _ _ _ _ _ _ _ _)).
  - reflexivity.
  - vm_compute. reflexivity.
  - vm_compute. reflexivity.
  - lia.
  - left. reflexivity.
  - exact (seeded_flags (mode_of empty_body) (or_introl eq_refl)).
  - intros i. reflexivity.
  - vm_compute. reflexivity.
Defined.

